(** * DJZ-ZeroEDIT: the deterministic edit-prompt generator and its tools

    A shallow embedding of [DJZ_ZeroEDIT.py], [Skill/profile_stats.py] and
    [Skill/validate_profile.py], and the properties the specification states
    about them.

    Conventions of the embedding:
    - Python [int] is [Z]; 32-bit arithmetic of xxHash32 and MD5 is written
      with its wrap-around ([mod 2^32]) and [Z]'s bit operations.
    - Python [str] is [string]; character classes ([str.lower], [str.strip],
      the regular expression class [\w], the digits of a field name) are
      those of the ASCII range, and the properties that depend on them are
      stated for ASCII text.
    - A Python exception is a value of [exn]; a call that may raise returns
      [result].  [Unmodelled] marks behaviour of the interpreter the
      embedding does not describe (format specs, conversions and attribute
      or index accessors inside a replacement field).
    - A [dict] whose iteration order matters (the pools of a profile) is the
      list of its items in insertion order; a [dict] used as a map (the
      selected components, the profile cache) is a [gmap]; a [set] is a
      [gset]. *)

From Stdlib Require Import ZArith Ascii String List Lia DecimalString.
From stdpp Require Import base option list gmap strings sorting.

Local Open Scope Z_scope.

(** ** Exceptions and results *)

(** [OSError] stands for what [open] raises on a path that exists and
    cannot be opened for reading ([IsADirectoryError], [PermissionError]);
    [UnicodeDecodeError] and [JSONDecodeError] are subclasses of
    [ValueError] in Python, and are caught wherever it is. *)
Inductive exn : Type :=
  | FileNotFoundError (msg : string)
  | OSError (msg : string)
  | UnicodeDecodeError (msg : string)
  | JSONDecodeError (msg : string)
  | ValueError (msg : string)
  | KeyError (key : string)
  | IndexError
  | TypeError
  | ZeroDivisionError
  | StructError
  | Unmodelled (feature : string).

Inductive result (A : Type) : Type :=
  | Ok (a : A)
  | Raise (e : exn).
Arguments Ok {A} a.
Arguments Raise {A} e.

#[global] Instance result_ret : MRet result := fun A a => Ok a.
#[global] Instance result_bind : MBind result := fun A B f m =>
  match m with
  | Ok a => f a
  | Raise e => Raise e
  end.
#[global] Instance result_fmap : FMap result := fun A B f m =>
  match m with
  | Ok a => Ok (f a)
  | Raise e => Raise e
  end.

(** ** Python built-ins used by the sources *)

(** [len(l)] *)
Definition len {A} (l : list A) : Z := Z.of_nat (length l).

(** [l[j]], with Python's negative indices and [IndexError]. *)
Definition getitem {A} (l : list A) (j : Z) : result A :=
  let k := if j <? 0 then j + len l else j in
  if k <? 0 then Raise IndexError
  else match l !! Z.to_nat k with
       | Some x => Ok x
       | None => Raise IndexError
       end.

(** [a % n] on integers. *)
Definition py_mod (a n : Z) : result Z :=
  if n =? 0 then Raise ZeroDivisionError else Ok (a mod n).

(** [str(n)] for an integer. *)
Definition str_of_int (n : Z) : string := NilZero.string_of_int (Z.to_int n).

(** [s.encode()] restricted to ASCII text: one byte per character. *)
Definition encode (s : string) : list Z :=
  map (fun c => Z.of_N (N_of_ascii c)) (list_ascii_of_string s).

(** ** 32-bit words *)

Definition u32 (x : Z) : Z := x mod 2 ^ 32.

Definition rotl32 (x r : Z) : Z :=
  u32 (Z.lor (Z.shiftl x r) (Z.shiftr x (32 - r))).

(** Four bytes, least significant first. *)
Definition le_bytes32 (w : Z) : list Z :=
  [w mod 256; (w / 2 ^ 8) mod 256; (w / 2 ^ 16) mod 256; (w / 2 ^ 24) mod 256].

Definition read32le (b0 b1 b2 b3 : Z) : Z :=
  b0 + b1 * 2 ^ 8 + b2 * 2 ^ 16 + b3 * 2 ^ 24.

(** ** [struct.pack('<' + 'i' * len(coords), *coords)] *)

Definition int32_min : Z := - 2 ^ 31.
Definition int32_max : Z := 2 ^ 31 - 1.

Definition in_int32 (c : Z) : bool := (int32_min <=? c) && (c <=? int32_max).

Fixpoint struct_pack_i (coords : list Z) : result (list Z) :=
  match coords with
  | [] => Ok []
  | c :: rest =>
      if in_int32 c
      then bs ← struct_pack_i rest; Ok (le_bytes32 (u32 c) ++ bs)
      else Raise StructError
  end.

(** ** xxHash32 ([xxhash.xxh32(seed=...)], [update], [intdigest]) *)

Module XXH32.

Definition PRIME32_1 : Z := 2654435761.
Definition PRIME32_2 : Z := 2246822519.
Definition PRIME32_3 : Z := 3266489917.
Definition PRIME32_4 : Z := 668265263.
Definition PRIME32_5 : Z := 374761393.

Definition round (acc input : Z) : Z :=
  u32 (rotl32 (u32 (acc + input * PRIME32_2)) 13 * PRIME32_1).

(** The 16-byte stripes: four lanes, one 32-bit read each. *)
Fixpoint stripes (v1 v2 v3 v4 : Z) (data : list Z) : Z * Z * Z * Z * list Z :=
  match data with
  | a0 :: a1 :: a2 :: a3 :: b0 :: b1 :: b2 :: b3 ::
    c0 :: c1 :: c2 :: c3 :: d0 :: d1 :: d2 :: d3 :: rest =>
      stripes (round v1 (read32le a0 a1 a2 a3)) (round v2 (read32le b0 b1 b2 b3))
              (round v3 (read32le c0 c1 c2 c3)) (round v4 (read32le d0 d1 d2 d3))
              rest
  | _ => (v1, v2, v3, v4, data)
  end.

(** The tail: whole words first, then single bytes; [word_step] and
    [byte_step] say how the accumulator consumes one of each. *)
Fixpoint consume (word_step byte_step : Z -> Z -> Z) (h : Z) (data : list Z) : Z :=
  match data with
  | b0 :: b1 :: b2 :: b3 :: rest =>
      consume word_step byte_step (word_step h (read32le b0 b1 b2 b3)) rest
  | b :: rest => consume word_step byte_step (byte_step h b) rest
  | [] => h
  end.

Definition finalize (h : Z) (data : list Z) : Z :=
  consume (fun h w => u32 (rotl32 (u32 (h + w * PRIME32_3)) 17 * PRIME32_4))
          (fun h b => u32 (rotl32 (u32 (h + b * PRIME32_5)) 11 * PRIME32_1))
          h data.

Definition avalanche (h : Z) : Z :=
  let h := Z.lxor h (Z.shiftr h 15) in
  let h := u32 (h * PRIME32_2) in
  let h := Z.lxor h (Z.shiftr h 13) in
  let h := u32 (h * PRIME32_3) in
  Z.lxor h (Z.shiftr h 16).

Definition digest (seed : Z) (data : list Z) : Z :=
  let n := len data in
  let '(h, tail) :=
    if 16 <=? n then
      let '(v1, v2, v3, v4, tail) :=
        stripes (u32 (seed + PRIME32_1 + PRIME32_2)) (u32 (seed + PRIME32_2))
                seed (u32 (seed - PRIME32_1)) data in
      (u32 (rotl32 v1 1 + rotl32 v2 7 + rotl32 v3 12 + rotl32 v4 18), tail)
    else (u32 (seed + PRIME32_5), data) in
  avalanche (finalize (u32 (h + n)) tail).

End XXH32.

(** ** MD5 ([hashlib.md5(data).hexdigest()] read as a base-16 integer) *)

Module MD5.

Definition K : list Z :=
  [ 3614090360; 3905402710; 606105819; 3250441966;
    4118548399; 1200080426; 2821735955; 4249261313;
    1770035416; 2336552879; 4294925233; 2304563134;
    1804603682; 4254626195; 2792965006; 1236535329;
    4129170786; 3225465664; 643717713; 3921069994;
    3593408605; 38016083; 3634488961; 3889429448;
    568446438; 3275163606; 4107603335; 1163531501;
    2850285829; 4243563512; 1735328473; 2368359562;
    4294588738; 2272392833; 1839030562; 4259657740;
    2763975236; 1272893353; 4139469664; 3200236656;
    681279174; 3936430074; 3572445317; 76029189;
    3654602809; 3873151461; 530742520; 3299628645;
    4096336452; 1126891415; 2878612391; 4237533241;
    1700485571; 2399980690; 4293915773; 2240044497;
    1873313359; 4264355552; 2734768916; 1309151649;
    4149444226; 3174756917; 718787259; 3951481745 ].

Definition SHIFTS : list Z :=
  [ 7; 12; 17; 22; 7; 12; 17; 22; 7; 12; 17; 22; 7; 12; 17; 22;
    5; 9; 14; 20; 5; 9; 14; 20; 5; 9; 14; 20; 5; 9; 14; 20;
    4; 11; 16; 23; 4; 11; 16; 23; 4; 11; 16; 23; 4; 11; 16; 23;
    6; 10; 15; 21; 6; 10; 15; 21; 6; 10; 15; 21; 6; 10; 15; 21 ].

Definition not32 (x : Z) : Z := Z.lxor x 4294967295.

(** The message with its padding: a [0x80] byte, zeros up to 56 modulo 64,
    and the bit length on eight bytes, least significant first. *)
Definition pad (data : list Z) : list Z :=
  let n := len data in
  let zeros := Z.to_nat ((55 - n) mod 64) in
  data ++ [128] ++ repeat 0 zeros
       ++ le_bytes32 (u32 (8 * n)) ++ le_bytes32 (u32 ((8 * n) / 2 ^ 32)).

Fixpoint words (bytes : list Z) : list Z :=
  match bytes with
  | b0 :: b1 :: b2 :: b3 :: rest => read32le b0 b1 b2 b3 :: words rest
  | _ => []
  end.

(** One of the 64 steps on the state [(A, B, C, D)] for the block [M]. *)
Definition step (M : list Z) (st : Z * Z * Z * Z) (i : nat) : Z * Z * Z * Z :=
  let '(A, B, C, D) := st in
  let zi := Z.of_nat i in
  let '(F, g) :=
    if zi <? 16 then (Z.lor (Z.land B C) (Z.land (not32 B) D), zi)
    else if zi <? 32 then (Z.lor (Z.land D B) (Z.land (not32 D) C), (5 * zi + 1) mod 16)
    else if zi <? 48 then (Z.lxor (Z.lxor B C) D, (3 * zi + 5) mod 16)
    else (Z.lxor C (Z.lor B (not32 D)), (7 * zi) mod 16) in
  let F := u32 (F + A + nth i K 0 + nth (Z.to_nat g) M 0) in
  (D, u32 (B + rotl32 F (nth i SHIFTS 0)), B, C).

Definition block (st : Z * Z * Z * Z) (M : list Z) : Z * Z * Z * Z :=
  let '(a0, b0, c0, d0) := st in
  let '(A, B, C, D) := fold_left (step M) (seq 0 64) st in
  (u32 (a0 + A), u32 (b0 + B), u32 (c0 + C), u32 (d0 + D)).

Fixpoint blocks (st : Z * Z * Z * Z) (ws : list Z) : Z * Z * Z * Z :=
  match ws with
  | w0 :: w1 :: w2 :: w3 :: w4 :: w5 :: w6 :: w7 ::
    w8 :: w9 :: w10 :: w11 :: w12 :: w13 :: w14 :: w15 :: rest =>
      blocks (block st [w0; w1; w2; w3; w4; w5; w6; w7;
                        w8; w9; w10; w11; w12; w13; w14; w15]) rest
  | _ => st
  end.

Definition digest (data : list Z) : list Z :=
  let '(a, b, c, d) :=
    blocks (1732584193, 4023233417, 2562383102, 271733878) (words (pad data)) in
  le_bytes32 a ++ le_bytes32 b ++ le_bytes32 c ++ le_bytes32 d.

(** [int(hashlib.md5(data).hexdigest(), 16)] *)
Definition hexdigest_int (data : list Z) : Z :=
  fold_left (fun acc b => acc * 256 + b) (digest data) 0.

End MD5.

(** ** Python [str] methods used by the sources *)

Definition code (c : ascii) : Z := Z.of_N (N_of_ascii c).

(** The sources' strings are read as ASCII text: [lower], [is_blank] and
    [is_word] below are [str.lower], [str.strip] and the class [\w] of [re]
    on the characters of the ASCII range, and say nothing of what Python
    does with the other characters (the case of [É], the white space
    [U+00A0], the letters and digits of other scripts).  The properties
    that depend on them are stated for ASCII text, [ascii_text]. *)
Definition is_ascii (c : ascii) : bool := (code c <? 128)%Z.

Definition is_upper (c : ascii) : bool := (65 <=? code c)%Z && (code c <=? 90)%Z.
Definition is_lower (c : ascii) : bool := (97 <=? code c)%Z && (code c <=? 122)%Z.
Definition is_digit (c : ascii) : bool := (48 <=? code c)%Z && (code c <=? 57)%Z.

(** The class [\w] of [re]: letters, digits and the underscore. *)
Definition is_word (c : ascii) : bool :=
  is_upper c || is_lower c || is_digit c || (c =? "_")%char.

(** [c.isspace()]: tab to carriage return, the four separators, the space. *)
Definition is_space (c : ascii) : bool :=
  ((9 <=? code c)%Z && (code c <=? 13)%Z)
  || ((28 <=? code c)%Z && (code c <=? 32)%Z).

Definition lower_char (c : ascii) : ascii :=
  if is_upper c then ascii_of_N (N_of_ascii c + 32) else c.

(** [s.lower()] *)
Fixpoint lower (s : string) : string :=
  match s with
  | EmptyString => EmptyString
  | String c s' => String (lower_char c) (lower s')
  end.

Fixpoint all_chars (f : ascii -> bool) (s : string) : bool :=
  match s with
  | EmptyString => true
  | String c s' => f c && all_chars f s'
  end.

(** [s.strip() == ''] *)
Definition is_blank (s : string) : bool := all_chars is_space s.

Definition ascii_text (s : string) : bool := all_chars is_ascii s.

(** [s.replace(old, new)] for a non-empty [old]: every occurrence, leftmost
    first, without overlap.  [skip] counts the characters of the occurrence
    being replaced that remain to be dropped. *)
Fixpoint replace_go (old new : string) (skip : nat) (s : string) : string :=
  match s with
  | EmptyString => EmptyString
  | String c s' =>
      match skip with
      | S k => replace_go old new k s'
      | O =>
          if String.prefix old s
          then new +:+ replace_go old new (Nat.pred (String.length old)) s'
          else String c (replace_go old new O s')
      end
  end.

Definition str_replace (old new s : string) : string := replace_go old new O s.

(** [sub in s] on strings. *)
Fixpoint str_contains (sub s : string) : bool :=
  String.prefix sub s ||
  match s with
  | EmptyString => false
  | String _ s' => str_contains sub s'
  end.

Definition hex_digit (n : Z) : ascii :=
  ascii_of_N (Z.to_N (if (n <? 10)%Z then 48 + n else 87 + n)).

(** [repr(s)]: the text is put between apostrophes, unless it has an
    apostrophe and no double quote: then between double quotes. *)
Definition dquote : ascii := "034"%char.

Definition repr_quote (s : string) : ascii :=
  if str_contains "'" s && negb (str_contains (String dquote "") s)
  then dquote else "'"%char.

Definition repr_char (q c : ascii) : string :=
  if (c =? q)%char || (c =? "\")%char then String "\"%char (String c "")
  else if (c =? "009")%char then "\t"
  else if (c =? "010")%char then "\n"
  else if (c =? "013")%char then "\r"
  else if (code c <? 32)%Z || (code c =? 127)%Z
          || ((128 <=? code c)%Z && (code c <=? 160)%Z) || (code c =? 173)%Z
  then String "\"%char (String "x"%char (String (hex_digit (code c / 16))
                                (String (hex_digit (code c mod 16)) "")))
  else String c "".

Fixpoint repr_body (q : ascii) (s : string) : string :=
  match s with
  | EmptyString => EmptyString
  | String c s' => repr_char q c +:+ repr_body q s'
  end.

Definition repr (s : string) : string :=
  let q := repr_quote s in String q (repr_body q s +:+ String q "").

(** ** [str.format] called with keyword arguments whose values are strings

    The scan of CPython's [MarkupIterator]: literal text with the escapes
    [{{] and [}}], and replacement fields [{name}].  The state records what
    the scan has just read. *)

Inductive fmt_state : Type :=
  | FLit
  | FOpen
  | FClose
  | FField (name : string).

(** The object a field name stands for: a name made of digits, or the empty
    name, indexes the (empty) positional arguments; any other name is a
    keyword.  [str.format] reads the decimal digits of every script as
    digits: a name with a character outside ASCII is left undescribed. *)
Definition get_field (kwargs : gmap string string) (name : string) : result string :=
  if String.eqb name "" then Raise IndexError
  else if negb (ascii_text name) then
    Raise (Unmodelled "a field name with a character outside ASCII")
  else if all_chars is_digit name then
    if (String.length name <=? 18)%nat then Raise IndexError
    else Raise (Unmodelled "an index of more than 18 digits")
  else match kwargs !! name with
       | Some v => Ok v
       | None => Raise (KeyError name)
       end.

Fixpoint format_go (kwargs : gmap string string) (st : fmt_state) (s : string)
  : result string :=
  match s with
  | EmptyString =>
      match st with
      | FLit => Ok ""
      | FOpen => Raise (ValueError "Single '{' encountered in format string")
      | FClose => Raise (ValueError "Single '}' encountered in format string")
      | FField _ => Raise (ValueError "expected '}' before end of string")
      end
  | String c s' =>
      let field (name : string) : result string :=
        if (c =? "{")%char then Raise (ValueError "unexpected '{' in field name")
        else if (c =? "}")%char then
          v ← get_field kwargs name; r ← format_go kwargs FLit s'; Ok (v +:+ r)
        else if (c =? "!")%char || (c =? ":")%char || (c =? ".")%char || (c =? "[")%char then
          Raise (Unmodelled "a conversion, format spec or accessor in a field")
        else format_go kwargs (FField (name +:+ String c "")) s' in
      match st with
      | FLit =>
          if (c =? "{")%char then format_go kwargs FOpen s'
          else if (c =? "}")%char then format_go kwargs FClose s'
          else r ← format_go kwargs FLit s'; Ok (String c r)
      | FOpen =>
          if (c =? "{")%char then r ← format_go kwargs FLit s'; Ok (String "{"%char r)
          else field ""
      | FClose =>
          if (c =? "}")%char then r ← format_go kwargs FLit s'; Ok (String "}"%char r)
          else Raise (ValueError "Single '}' encountered in format string")
      | FField name => field name
      end
  end.

Definition str_format (template : string) (kwargs : gmap string string) : result string :=
  format_go kwargs FLit template.


(** ** JSON documents and profiles *)

(** What [json.load] returns.  An object is the list of its members in the
    order of the document, as the [dict] built from it iterates them. *)
#[warnings="-register-all"]
Inductive json : Type :=
  | JNull
  | JBool (b : bool)
  | JNum (n : Z)
  | JStr (s : string)
  | JArr (items : list json)
  | JObj (members : list (string * json)).

(** [d[key]] on the members of an object. *)
Fixpoint assoc {A} (key : string) (members : list (string * A)) : option A :=
  match members with
  | [] => None
  | (k, v) :: rest => if String.eqb k key then Some v else assoc key rest
  end.

(** [d.keys()] *)
Definition keys {A} (members : list (string * A)) : list string := map fst members.

(** [d.values()] *)
Definition values {A} (members : list (string * A)) : list A := map snd members.

(** A profile of the documented shape: the templates, the pools in their
    declared order, and the members the generator never reads ([name],
    [description], [version] and unknown keys). *)
Record Profile : Type := {
  templates : list string;
  pools : list (string * list string);
  extra : list (string * json)
}.

Definition as_str (j : json) : option string :=
  match j with JStr s => Some s | _ => None end.

Definition as_str_list (j : json) : option (list string) :=
  match j with JArr items => mapM as_str items | _ => None end.

Definition as_pools (j : json) : option (list (string * list string)) :=
  match j with
  | JObj members => mapM (fun '(k, v) => pool ← as_str_list v; Some (k, pool)) members
  | _ => None
  end.

(** The typed view of a loaded document, when it has the documented shape. *)
Definition as_profile (j : json) : option Profile :=
  match j with
  | JObj members =>
      ts ← assoc "templates" members ≫= as_str_list;
      ps ← assoc "pools" members ≫= as_pools;
      Some {| templates := ts; pools := ps;
              extra := filter (fun kv => kv.1 ≠ "templates" ∧ kv.1 ≠ "pools") members |}
  | _ => None
  end.

(** What lies under a name of the profiles directory, as [open] and
    [json.load] find it: something that cannot be opened for reading (a
    directory, a file without read permission), with the message of the
    [OSError]; a file whose bytes are not UTF-8, with the message of the
    [UnicodeDecodeError]; a text that is not JSON, with the message of the
    [JSONDecodeError]; or a document. *)
Inductive file : Type :=
  | Unopenable (msg : string)
  | Undecodable (msg : string)
  | Malformed (msg : string)
  | Document (j : json).

(** ** More built-ins, for the nodes and the tools *)

(** [sep.join(parts)] *)
Fixpoint str_join (sep : string) (parts : list string) : string :=
  match parts with
  | [] => ""
  | [p] => p
  | p :: rest => p +:+ sep +:+ str_join sep rest
  end.

(** [s.endswith(suffix)] *)
Fixpoint ends_with (suffix s : string) : bool :=
  String.eqb s suffix
  || match s with
     | EmptyString => false
     | String _ s' => ends_with suffix s'
     end.

(** [sorted(names)]: strings are compared character by character, by their
    codes. *)
Definition sorted (names : list string) : list string :=
  merge_sort String.le names.

(** [l.remove(x)] where [x] is known to be in [l]: the first occurrence goes. *)
Fixpoint remove_first (x : string) (l : list string) : list string :=
  match l with
  | [] => []
  | y :: rest => if String.eqb y x then rest else y :: remove_first x rest
  end.

(** The format [{n:,}] of a non-negative integer, on its decimal digits
    read from the right: a comma before every group of three. *)
Fixpoint group_rev (digits : list ascii) (seen : nat) : list ascii :=
  match digits with
  | [] => []
  | d :: rest =>
      match seen with
      | 3%nat => ","%char :: d :: group_rev rest 1
      | _ => d :: group_rev rest (S seen)
      end
  end.

Definition with_commas (n : Z) : string :=
  string_of_list_ascii
    (rev (group_rev (rev (list_ascii_of_string (str_of_int n))) 0)).

(** [len(v)] for a value read from JSON. *)
Definition json_len (v : json) : result Z :=
  match v with
  | JStr s => Ok (Z.of_nat (String.length s))
  | JArr items => Ok (len items)
  | JObj members => Ok (len members)
  | JNull | JBool _ | JNum _ => Raise TypeError
  end.

(** [repr(v)] and [str(v)] for a value read from JSON. *)
Fixpoint json_repr (v : json) : string :=
  match v with
  | JNull => "None"
  | JBool b => if b then "True" else "False"
  | JNum n => str_of_int n
  | JStr s => repr s
  | JArr items => "[" +:+ str_join ", " (map json_repr items) +:+ "]"
  | JObj members =>
      "{" +:+ str_join ", "
                (map (fun kv => let (k, x) := kv : string * json in
                                repr k +:+ ": " +:+ json_repr x) members)
          +:+ "}"
  end.

Definition json_str (v : json) : string :=
  match v with
  | JStr s => s
  | _ => json_repr v
  end.

(** The name of the type of a value, as the message of a [TypeError] has it. *)
Definition type_name (v : json) : string :=
  match v with
  | JNull => "NoneType"
  | JBool _ => "bool"
  | JNum _ => "int"
  | JStr _ => "str"
  | JArr _ => "list"
  | JObj _ => "dict"
  end.

(** An entry of the profiles directory: its name, and whether it is a
    regular file. *)
Record dir_entry : Type := { entry_name : string; entry_is_file : bool }.

(** ** DJZ_ZeroEDIT.py *)

Module DJZ_ZeroEDIT.

(** [key in profile], for what [json.load] may have returned. *)
Definition contains (key : string) (profile : json) : result bool :=
  match profile with
  | JObj members => Ok (bool_decide (key ∈ keys members))
  | JArr items => Ok (existsb (fun j => match j with JStr s => String.eqb s key | _ => false end) items)
  | JStr s => Ok (str_contains key s)
  | JNull | JBool _ | JNum _ => Raise TypeError
  end.

Definition load_profile (fs : gmap string file) (profile_name : string) : result json :=
  match fs !! profile_name with
  | None => Raise (FileNotFoundError ("Profile not found: " +:+ profile_name))
  | Some (Unopenable msg) => Raise (OSError msg)
  | Some (Undecodable msg) => Raise (UnicodeDecodeError msg)
  | Some (Malformed msg) => Raise (JSONDecodeError msg)
  | Some (Document profile) =>
      has_templates ← contains "templates" profile;
      if negb has_templates
      then Raise (ValueError ("Profile " +:+ profile_name +:+ " missing 'templates' field"))
      else
        has_pools ← contains "pools" profile;
        if negb has_pools
        then Raise (ValueError ("Profile " +:+ profile_name +:+ " missing 'pools' field"))
        else Ok profile
  end.

Definition calculate_combinations (profile : Profile) : Z :=
  fold_left (fun total pool => total * len pool) (values (pools profile))
            (len (templates profile)).

Definition edit_hash (seed : Z) (coords : list Z) : result Z :=
  data ← struct_pack_i coords;
  Ok (XXH32.digest (Z.land seed 4294967295) data).

Definition hash_to_index (h pool_size : Z) : result Z := py_mod h pool_size.

(** The loop over [enumerate(pools.items())]: [i] is the position of the
    first pool of [items], [components] the dictionary filled so far. *)
Fixpoint select_components (seed prompt_idx : Z) (i : Z)
    (items : list (string * list string)) (components : gmap string string)
  : result (gmap string string) :=
  match items with
  | [] => Ok components
  | (key, pool) :: rest =>
      component_hash ← edit_hash seed [prompt_idx; i + 1];
      j ← hash_to_index component_hash (len pool);
      v ← getitem pool j;
      select_components seed prompt_idx (i + 1) rest (<[key := v]> components)
  end.

(** The handler of [KeyError]: one [replace] per pool, in the order of the
    pools. *)
Definition partial_format (pools : list (string * list string))
    (components : gmap string string) (template : string) : string :=
  fold_left
    (fun template key =>
       str_replace ("{" +:+ key +:+ "}")
                   (default ("[" +:+ key +:+ "]") (components !! key)) template)
    (keys pools) template.

(** The [try] statement that ends [generate_edit_prompt]. *)
Definition render (pools : list (string * list string))
    (components : gmap string string) (template : string) : result string :=
  match str_format template components with
  | Raise (KeyError _) => Ok (partial_format pools components template)
  | r => r
  end.

Definition generate_edit_prompt (seed prompt_idx : Z) (profile : Profile) : result string :=
  let templates := templates profile in
  let pools := pools profile in
  template_hash ← edit_hash seed [prompt_idx; 0];
  t ← hash_to_index template_hash (len templates);
  template ← getitem templates t;
  components ← select_components seed prompt_idx 0 pools ∅;
  render pools components template.

(** [str(e)] for the exceptions [load_profile] raises. *)
Definition str_of_exn (e : exn) : string :=
  match e with
  | FileNotFoundError msg | OSError msg | UnicodeDecodeError msg
  | JSONDecodeError msg | ValueError msg => msg
  | _ => ""
  end.

(** [except (FileNotFoundError, ValueError, json.JSONDecodeError)]: a
    [UnicodeDecodeError] is a [ValueError]; the other errors of [open] are
    not among the three. *)
Definition caught_on_load (e : exn) : bool :=
  match e with
  | FileNotFoundError _ | UnicodeDecodeError _ | JSONDecodeError _
  | ValueError _ => true
  | _ => false
  end.

(** [DJZZeroEDIT.generate]: the class-level [_profile_cache] is threaded
    through the call; the one-element tuple it returns is its element. *)
Definition generate (fs : gmap string file) (cache : gmap string json)
    (profile : string) (seed prompt_index : Z) (prefix suffix : string)
  : gmap string json * result string :=
  let run (cache : gmap string json) (profile_data : json) :=
    match as_profile profile_data with
    | None => (cache, Raise (Unmodelled "a profile that is not of the documented shape"))
    | Some p =>
        (cache,
         prompt ← generate_edit_prompt seed prompt_index p;
         if negb (String.eqb prefix "") || negb (String.eqb suffix "")
         then Ok (prefix +:+ prompt +:+ suffix)
         else Ok prompt)
    end in
  match cache !! profile with
  | Some profile_data => run cache profile_data
  | None =>
      match load_profile fs profile with
      | Ok profile_data => run (<[profile := profile_data]> cache) profile_data
      | Raise e =>
          if caught_on_load e
          then (cache, Ok ("[Error loading profile '" +:+ profile +:+ "': "
                             +:+ str_of_exn e +:+ "]"))
          else (cache, Raise e)
      end
  end.

(** [discover_profiles]: the directory is [None] when it does not exist,
    else its entries in the order [glob] yields them.  The call returns the
    list of names and the directory as it leaves it (created when absent). *)
Definition default_profile : string := "default-EDIT.json".

Definition discover_profiles (dir : option (list dir_entry))
  : list string * option (list dir_entry) :=
  match dir with
  | None => ([default_profile], Some [])
  | Some entries =>
      let profiles :=
        sorted (map entry_name
                    (filter (fun f => ends_with ".json" (entry_name f) = true
                                      ∧ entry_is_file f = true) entries)) in
      let profiles :=
        if bool_decide (default_profile ∈ profiles)
        then default_profile :: remove_first default_profile profiles
        else profiles in
      (match profiles with [] => [default_profile] | _ => profiles end, dir)
  end.

(** [if prefix or suffix: prompt = f"{prefix}{prompt}{suffix}"] *)
Definition with_affixes (prefix suffix prompt : string) : string :=
  if negb (String.eqb prefix "") || negb (String.eqb suffix "")
  then prefix +:+ prompt +:+ suffix
  else prompt.

(** [DJZZeroEDIT.IS_CHANGED] *)
Definition IS_CHANGED (profile : string) (seed prompt_index : Z)
    (prefix suffix : string) : result Z :=
  let profile_hash := XXH32.digest 0 (encode profile) in
  edit_hash (Z.lxor seed profile_hash) [prompt_index; 0].

(** [DJZZeroEDITBatch.generate_batch], on the cache of its own class. *)
Definition generate_batch (fs : gmap string file) (cache : gmap string json)
    (profile : string) (seed start_index batch_size : Z) (prefix suffix : string)
  : gmap string json * result (list string) :=
  let run (cache : gmap string json) (profile_data : json) :=
    (cache,
     match Z.to_nat batch_size with
     | O => Ok []
     | n =>
         match as_profile profile_data with
         | None => Raise (Unmodelled "a profile that is not of the documented shape")
         | Some p =>
             mapM (fun i =>
                     prompt ← generate_edit_prompt seed (start_index + Z.of_nat i) p;
                     Ok (with_affixes prefix suffix prompt))
                  (seq 0 n)
         end
     end) in
  match cache !! profile with
  | Some profile_data => run cache profile_data
  | None =>
      match load_profile fs profile with
      | Ok profile_data => run (<[profile := profile_data]> cache) profile_data
      | Raise e =>
          if caught_on_load e
          then (cache, Ok ["[Error loading profile '" +:+ profile +:+ "': "
                             +:+ str_of_exn e +:+ "]"])
          else (cache, Raise e)
      end
  end.

(** [DJZZeroEDITBatch.IS_CHANGED] *)
Definition IS_CHANGED_batch (profile : string) (seed start_index batch_size : Z)
    (prefix suffix : string) : result Z :=
  let profile_hash := XXH32.digest 0 (encode profile) in
  edit_hash (Z.lxor seed profile_hash) [start_index; batch_size].

(** [DJZZeroEDITProfileInfo.get_info].  [format_2e] is the format
    [{total:.2e}] of Python's floating-point numbers, which the embedding
    takes as given; the message of a [TypeError] is that of CPython up to
    3.13; a document that is not an object, or whose [pools] is not one,
    has no method [get] or [items]. *)
Section ProfileInfo.

Variable format_2e : Z -> result string.

Definition newline : string := String "010"%char "".

Definition exception_text (fs : gmap string file) (profile : string) (e : exn) : string :=
  match e with
  | TypeError =>
      match fs !! profile with
      | Some (Document v) => "argument of type '" +:+ type_name v +:+ "' is not iterable"
      | _ => ""
      end
  | _ => str_of_exn e
  end.

(** [d.get(key, fallback)], then [str] of it. *)
Definition get_str (members : list (string * json)) (key fallback : string) : string :=
  match assoc key members with
  | Some v => json_str v
  | None => fallback
  end.

Definition get_info (fs : gmap string file) (profile : string) : result string :=
  match load_profile fs profile with
  | Raise e => Ok ("Error loading profile: " +:+ exception_text fs profile e)
  | Ok (JObj members) =>
      let lines :=
        [ "Profile: " +:+ get_str members "name" profile;
          "Description: " +:+ get_str members "description" "N/A";
          "Version: " +:+ get_str members "version" "N/A";
          "";
          "Pool Sizes:" ] in
      match default (JObj []) (assoc "pools" members) with
      | JObj pools =>
          pool_lines ←
            mapM (fun kv : string * json =>
                    n ← json_len kv.2;
                    Ok ("  " +:+ kv.1 +:+ ": " +:+ str_of_int n +:+ " entries"))
                 pools;
          n_templates ← json_len (default (JArr []) (assoc "templates" members));
          sizes ← mapM json_len (values pools);
          let total := fold_left Z.mul sizes n_templates in
          scientific ← format_2e total;
          Ok (str_join newline
                (lines ++ pool_lines
                   ++ [ "  templates: " +:+ str_of_int n_templates +:+ " variations";
                        "";
                        "Total unique edit prompts: " +:+ with_commas total;
                        "Scientific notation: " +:+ scientific ]))
      | _ => Raise (Unmodelled "AttributeError: the pools have no method items")
      end
  | Ok _ => Raise (Unmodelled "AttributeError: the document has no method get")
  end.

End ProfileInfo.

End DJZ_ZeroEDIT.

(** ** Skill/profile_stats.py *)

Module profile_stats.

(** [sep.join(parts)] *)
Fixpoint join (sep : string) (parts : list string) : string :=
  match parts with
  | [] => ""
  | [p] => p
  | p :: rest => p +:+ sep +:+ join sep rest
  end.

(** [HAS_XXHASH] is fixed when the module is imported: whether [xxhash]
    could be imported. *)
Definition hash_coords (HAS_XXHASH : bool) (seed : Z) (coords : list Z) : result Z :=
  if HAS_XXHASH then
    data ← struct_pack_i coords;
    Ok (XXH32.digest (Z.land seed 4294967295) data)
  else
    let data := str_of_int seed +:+ ":" +:+ join ":" (map str_of_int coords) in
    Ok (MD5.hexdigest_int (encode data)).

Fixpoint select_components (HAS_XXHASH : bool) (seed idx : Z) (i : Z)
    (items : list (string * list string)) (components : gmap string string)
  : result (gmap string string) :=
  match items with
  | [] => Ok components
  | (key, pool) :: rest =>
      comp_hash ← hash_coords HAS_XXHASH seed [idx; i + 1];
      j ← py_mod comp_hash (len pool);
      v ← getitem pool j;
      select_components HAS_XXHASH seed idx (i + 1) rest (<[key := v]> components)
  end.

Definition generate_prompt (HAS_XXHASH : bool) (seed idx : Z) (profile : Profile)
  : result string :=
  let templates := templates profile in
  let pools := pools profile in
  template_hash ← hash_coords HAS_XXHASH seed [idx; 0];
  t ← py_mod template_hash (len templates);
  template ← getitem templates t;
  components ← select_components HAS_XXHASH seed idx 0 pools ∅;
  match str_format template components with
  | Raise (KeyError _) =>
      Ok (fold_left
            (fun template key =>
               str_replace ("{" +:+ key +:+ "}")
                           (default ("[" +:+ key +:+ "]") (components !! key)) template)
            (keys pools) template)
  | r => r
  end.

Definition calculate_combinations (profile : Profile) : Z :=
  fold_left (fun total pool => total * len pool) (values (pools profile))
            (len (templates profile)).

End profile_stats.

(** ** Skill/validate_profile.py *)

Module validate_profile.

(** The loop that looks for duplicates in one pool; [seen] is the set of
    the lower-cased entries read so far. *)
Fixpoint check_duplicates (pool_name : string) (seen : gset string)
    (pool_items : list string) : list string :=
  match pool_items with
  | [] => []
  | item :: rest =>
      let item_lower := lower item in
      (if bool_decide (item_lower ∈ seen)
       then ["Duplicate entry in pool '" +:+ pool_name +:+ "': '" +:+ item +:+ "'"]
       else [])
      ++ check_duplicates pool_name ({[item_lower]} ∪ seen) rest
  end.

(** The loop that looks for blank entries; [i] is the index of the first
    entry of [pool_items]. *)
Fixpoint check_blanks (pool_name : string) (i : Z) (pool_items : list string)
  : list string :=
  match pool_items with
  | [] => []
  | item :: rest =>
      (if is_blank item
       then ["Empty string at index " +:+ str_of_int i +:+ " in pool '"
               +:+ pool_name +:+ "'"]
       else [])
      ++ check_blanks pool_name (i + 1) rest
  end.

Definition validate_pool (pool_name : string) (pool_items : list string) : list string :=
  match pool_items with
  | [] => ["Pool '" +:+ pool_name +:+ "' is empty"]
  | _ => check_duplicates pool_name ∅ pool_items ++ check_blanks pool_name 0 pool_items
  end.

Definition validate_pools (profile : Profile) : list string :=
  concat (map (fun '(pool_name, pool_items) => validate_pool pool_name pool_items)
              (pools profile)).

(** [re.compile(r'\{(\w+)\}').findall(template)]: [st] is the run of word
    characters read since an opening brace, when the scan is inside one. *)
Fixpoint findall_go (st : option string) (s : string) : list string :=
  match s with
  | EmptyString => []
  | String c s' =>
      if (c =? "{")%char then findall_go (Some "") s'
      else match st with
           | None => findall_go None s'
           | Some acc =>
               if is_word c then findall_go (Some (acc +:+ String c "")) s'
               else if (c =? "}")%char && negb (String.eqb acc "")
                    then acc :: findall_go None s'
                    else findall_go None s'
           end
  end.

Definition placeholders (template : string) : list string := findall_go None template.

Definition check_template (pool_names : gset string) (i : Z) (template : string)
  : list string :=
  concat (map (fun placeholder =>
                 if bool_decide (placeholder ∈ pool_names) then []
                 else ["Template " +:+ str_of_int i +:+ " references undefined pool '"
                         +:+ placeholder +:+ "'"])
              (placeholders template)).

Fixpoint check_templates (pool_names : gset string) (i : Z) (templates : list string)
  : list string :=
  match templates with
  | [] => []
  | template :: rest =>
      check_template pool_names i template ++ check_templates pool_names (i + 1) rest
  end.

Definition validate_templates (profile : Profile) : list string :=
  check_templates (list_to_set (keys (pools profile))) 0 (templates profile).

Definition calculate_combinations (profile : Profile) : Z :=
  fold_left (fun total pool => total * len pool) (values (pools profile))
            (len (templates profile)).

(** [int(hashlib.md5(f"{seed}-{idx}-{slot}".encode()).hexdigest(), 16)] *)
Definition md5_of (seed idx slot : Z) : Z :=
  MD5.hexdigest_int
    (encode (str_of_int seed +:+ "-" +:+ str_of_int idx +:+ "-" +:+ str_of_int slot)).

Fixpoint fill_components (seed idx : Z) (i : Z)
    (items : list (string * list string)) (components : gmap string string)
  : result (gmap string string) :=
  match items with
  | [] => Ok components
  | (pool_name, pool_items) :: rest =>
      item_idx ← py_mod (md5_of seed idx (i + 1)) (len pool_items);
      v ← getitem pool_items item_idx;
      fill_components seed idx (i + 1) rest (<[pool_name := v]> components)
  end.

(** The body of the loop for one [idx]. *)
Definition test_output (profile : Profile) (seed idx : Z) : result string :=
  let templates := templates profile in
  let pools := pools profile in
  template_idx ← py_mod (md5_of seed idx 0) (len templates);
  template ← getitem templates template_idx;
  components ← fill_components seed idx 0 pools ∅;
  match str_format template components with
  | Raise (KeyError k) => Ok ("[ERROR: Missing pool " +:+ repr k +:+ "]")
  | r => r
  end.

(** [generate_test_output(profile, seed, count)]: one output per index of
    [range(count)]. *)
Definition generate_test_output (profile : Profile) (seed : Z) (count : Z)
  : result (list string) :=
  mapM (fun idx => test_output profile seed (Z.of_nat idx)) (seq 0 (Z.to_nat count)).

(** [field in profile] and [profile[field]], for what [json.load] may have
    returned. *)
Definition has_field (field : string) (profile : json) : result bool :=
  DJZ_ZeroEDIT.contains field profile.

Definition get_field_value (field : string) (profile : json) : result json :=
  match profile with
  | JObj members =>
      match assoc field members with
      | Some v => Ok v
      | None => Raise (KeyError field)
      end
  | _ => Raise TypeError
  end.

Definition required_fields : list string :=
  ["name"; "description"; "version"; "templates"; "pools"].

Fixpoint check_required (fields : list string) (profile : json) : result (list string) :=
  match fields with
  | [] => Ok []
  | field :: rest =>
      present ← has_field field profile;
      errors ← check_required rest profile;
      Ok ((if present : bool then []
           else ["Missing required field: '" +:+ field +:+ "'"]) ++ errors)
  end.

Definition validate_structure (profile : json) : result (list string) :=
  errors ← check_required required_fields profile;
  has_templates ← has_field "templates" profile;
  templates_errors ←
    (if has_templates : bool then
       ts ← get_field_value "templates" profile;
       match ts with
       | JArr [] => Ok ["'templates' cannot be empty"]
       | JArr _ => Ok []
       | _ => Ok ["'templates' must be a list"]
       end
     else Ok []);
  has_pools ← has_field "pools" profile;
  pools_errors ←
    (if has_pools : bool then
       ps ← get_field_value "pools" profile;
       match ps with
       | JObj _ => Ok []
       | _ => Ok ["'pools' must be a dictionary"]
       end
     else Ok []);
  Ok (errors ++ templates_errors ++ pools_errors).

End validate_profile.

(** * Specification-level definitions *)

(** The product of the sizes the spec writes [Π len(pool_i)]. *)
Definition product (sizes : list Z) : Z := fold_right Z.mul 1 sizes.

(** The range of an unsigned 32-bit integer. *)
Definition is_uint32 (h : Z) : Prop := 0 <= h < 2 ^ 32.

(** The profile of the spec's end-to-end scenario. *)
Definition scenario_profile : Profile :=
  {| templates := ["A {x} B {y}"; "C {y}"];
     pools := [("x", ["p"; "q"]); ("y", ["r"; "s"; "t"])];
     extra := [] |}.

(** A profile whose only template names a pool, [b], that it does not have. *)
Definition unresolved_profile : Profile :=
  {| templates := ["{a} {b}"]; pools := [("a", ["x"])]; extra := [] |}.

(** The schema of section 6 of the spec: [templates] a non-empty array of
    strings, [pools] a non-empty object of non-empty arrays of strings. *)
Definition is_str (j : json) : bool :=
  match j with JStr _ => true | _ => false end.

Definition nonempty_str_array (j : json) : bool :=
  match j with
  | JArr (item :: items) => forallb is_str (item :: items)
  | _ => false
  end.

Definition schema_ok (j : json) : bool :=
  match j with
  | JObj members =>
      match assoc "templates" members, assoc "pools" members with
      | Some t, Some (JObj (pool :: others)) =>
          nonempty_str_array t
          && forallb (fun kv => nonempty_str_array kv.2) (pool :: others)
      | _, _ => false
      end
  | _ => false
  end.

(** The failures of the loader the spec names, each with its message. *)
Inductive load_failure : exn -> string -> Prop :=
  | file_not_found msg : load_failure (FileNotFoundError msg) msg
  | invalid_json msg : load_failure (JSONDecodeError msg) msg
  | missing_field msg : load_failure (ValueError msg) msg.

(** A document with both fields, one of them empty and the other
    wrong-typed, and a directory that holds it. *)
Definition hollow_document : json :=
  JObj [("templates", JArr []); ("pools", JNum 3)].

Definition hollow_directory : gmap string file :=
  {["hollow.json" := Document hollow_document]}.

(** What the validator reports for the pools and the templates. *)
Definition findings (profile : Profile) : list string :=
  validate_profile.validate_pools profile ++ validate_profile.validate_templates profile.


(** Two entries at different positions that are equal up to case. *)
Definition ci_duplicate (items : list string) : Prop :=
  exists (i j : nat) (a b : string),
    (i < j)%nat /\ items !! i = Some a /\ items !! j = Some b /\ lower a = lower b.



(** A name the pattern of the validator matches: one word character or
    more. *)
Definition word_name (name : string) : bool :=
  negb (String.eqb name "") && all_chars is_word name.

(** A template names a placeholder when the name, a word, stands in it
    between an opening and a closing brace. *)
Definition names_placeholder (template name : string) : Prop :=
  word_name name = true
  /\ exists pre post, template = pre +:+ (("{" +:+ name +:+ "}") +:+ post).




(** The index mapper of the spec: [indexOf(h, n) = h mod n]. *)
Definition indexOf (h n : Z) : Z := h mod n.

(** The entry of [items] at a position known to be in range. *)
Definition at_index (items : list string) (j : Z) : string :=
  nth (Z.to_nat j) items "".

(** Step 2 of the generator in the spec: the pool at [position] takes the
    value [pool[indexOf(hash(seed, (index, position)), len(pool))]], then
    the next pool the next position. *)
Fixpoint selected_from (seed index position : Z) (pools : list (string * list string))
  : result (list (string * string)) :=
  match pools with
  | [] => Ok []
  | (key, pool) :: rest =>
      h ← DJZ_ZeroEDIT.edit_hash seed [index; position];
      others ← selected_from seed index (position + 1) rest;
      Ok ((key, at_index pool (indexOf h (len pool))) :: others)
  end.

(** The pools are numbered from 1; 0 is the slot of the template. *)
Definition selected_values (seed index : Z) (pools : list (string * list string))
  : result (list (string * string)) :=
  selected_from seed index 1 pools.

(** A template as the spec describes it: literal text and placeholders
    [{name}]. *)
Inductive piece : Type :=
  | Text (s : string)
  | Placeholder (name : string).

Definition show_piece (pc : piece) : string :=
  match pc with
  | Text s => s
  | Placeholder name => "{" +:+ name +:+ "}"
  end.

Fixpoint show (pieces : list piece) : string :=
  match pieces with
  | [] => ""
  | pc :: rest => show_piece pc +:+ show rest
  end.

(** Step 3 of the generator in the spec: every placeholder replaced by
    the value selected for its pool. *)
Fixpoint substitute (values : gmap string string) (pieces : list piece) : string :=
  match pieces with
  | [] => ""
  | Text s :: rest => s +:+ substitute values rest
  | Placeholder name :: rest => default "" (values !! name) +:+ substitute values rest
  end.

(** Literal text has no brace; a placeholder has a name that is not empty,
    not a number, made of ASCII characters and free of those that end or
    qualify a field, and names one of the values. *)
Definition text_char (c : ascii) : bool :=
  negb ((c =? "{")%char || (c =? "}")%char).

Definition name_char (c : ascii) : bool :=
  negb ((c =? "{")%char || (c =? "}")%char || (c =? "!")%char
        || (c =? ":")%char || (c =? ".")%char || (c =? "[")%char).

Definition plain_name (name : string) : bool :=
  negb (String.eqb name "") && all_chars name_char name
  && negb (all_chars is_digit name) && ascii_text name.

Definition plain_piece (values : gmap string string) (pc : piece) : bool :=
  match pc with
  | Text s => all_chars text_char s
  | Placeholder name => plain_name name && bool_decide (is_Some (values !! name))
  end.

Definition plain (values : gmap string string) (pieces : list piece) : bool :=
  forallb (plain_piece values) pieces.

(** [components[key] = value] as a step of a fold. *)
Definition set_item (m : gmap string string) (kv : string * string) : gmap string string :=
  <[kv.1 := kv.2]> m.

(** A template whose every piece is well formed: text without braces, and
    placeholders with a name a replacement field can have. *)
Definition well_formed_piece (pc : piece) : bool :=
  match pc with
  | Text s => all_chars text_char s
  | Placeholder name => plain_name name
  end.

Definition well_formed (pieces : list piece) : bool := forallb well_formed_piece pieces.

(** The template with every placeholder that has a value replaced by it,
    and the others by what [marks] says. *)
Fixpoint fill (values : gmap string string) (marks : string -> string)
    (pieces : list piece) : string :=
  match pieces with
  | [] => ""
  | Text s :: rest => s +:+ fill values marks rest
  | Placeholder name :: rest =>
      match values !! name with
      | Some v => v
      | None => marks name
      end +:+ fill values marks rest
  end.

(** The placeholder as it is written. *)
Definition braces (name : string) : string := "{" +:+ name +:+ "}".

(** One [replace] of the handler, seen on the pieces. *)
Definition resolve (key value : string) (pc : piece) : piece :=
  match pc with
  | Placeholder name => if String.eqb name key then Text value else pc
  | Text _ => pc
  end.

Definition brace_free (s : string) : bool := all_chars text_char s.

Definition piece_text (pc : piece) : string :=
  match pc with Text s => s | Placeholder name => name end.

Definition pieces_free (pieces : list piece) : bool :=
  forallb (fun pc => brace_free (piece_text pc)) pieces.

(** [components.get(key, "[key]")] *)
Definition handler_value (components : gmap string string) (key : string) : string :=
  default ("[" +:+ key +:+ "]") (components !! key).

Definition resolve_all (components : gmap string string) (ks : list string)
    (pc : piece) : piece :=
  fold_left (fun pc key => resolve key (handler_value components key) pc) ks pc.


(** ** Definitions for the nodes, the discovery and the validator *)

(** The names of the regular files of a directory that end in [.json], in
    the order of the directory. *)
Definition json_files (entries : list dir_entry) : list string :=
  map entry_name
      (filter (fun f => ends_with ".json" (entry_name f) = true
                        ∧ entry_is_file f = true) entries).

(** A profiles directory with three profiles, a text file and a
    sub-directory that is named like a profile. *)
Definition profiles_directory : list dir_entry :=
  [ {| entry_name := "portrait.json"; entry_is_file := true |};
    {| entry_name := "notes.txt"; entry_is_file := true |};
    {| entry_name := "default-EDIT.json"; entry_is_file := true |};
    {| entry_name := "old.json"; entry_is_file := false |};
    {| entry_name := "Landscape.json"; entry_is_file := true |} ].

(** A document that is null, a boolean or a number. *)
Definition is_scalar (v : json) : bool :=
  match v with
  | JNull | JBool _ | JNum _ => true
  | JStr _ | JArr _ | JObj _ => false
  end.

(** The line of the report for one pool. *)
Definition pool_line (kp : string * list string) : string :=
  "  " +:+ kp.1 +:+ ": " +:+ str_of_int (len kp.2) +:+ " entries".

(** The names of the placeholders of a template, in its order. *)
Fixpoint placeholder_names (pieces : list piece) : list string :=
  match pieces with
  | [] => []
  | Text _ :: rest => placeholder_names rest
  | Placeholder name :: rest => name :: placeholder_names rest
  end.

(** What [validate_structure] reports for the value of [templates] and for
    that of [pools]. *)
Definition templates_errors (members : list (string * json)) : list string :=
  match assoc "templates" members with
  | None => []
  | Some (JArr []) => ["'templates' cannot be empty"]
  | Some (JArr _) => []
  | Some _ => ["'templates' must be a list"]
  end.

Definition pools_errors (members : list (string * json)) : list string :=
  match assoc "pools" members with
  | None | Some (JObj _) => []
  | Some _ => ["'pools' must be a dictionary"]
  end.

Definition missing_fields (members : list (string * json)) : list string :=
  map (fun field => "Missing required field: '" +:+ field +:+ "'")
      (filter (fun field => field ∉ keys members) validate_profile.required_fields).

(** The scenario profile as the document of a file, the directory that
    holds it and the cache that has loaded it. *)
Definition scenario_document : json :=
  JObj [ ("name", JStr "Scenario");
         ("templates", JArr [JStr "A {x} B {y}"; JStr "C {y}"]);
         ("pools", JObj [ ("x", JArr [JStr "p"; JStr "q"]);
                          ("y", JArr [JStr "r"; JStr "s"; JStr "t"]) ]) ].

Definition scenario_directory : gmap string file :=
  {["scenario.json" := Document scenario_document]}.

Definition scenario_cache : gmap string json :=
  {["scenario.json" := scenario_document]}.

(** A directory whose one file holds [null]. *)
Definition scalar_directory : gmap string file :=
  {["null.json" := Document JNull]}.

(** A profile whose template names its pool by a number, and one whose pool
    has no entry. *)
Definition numeric_profile : Profile :=
  {| templates := ["{0}"]; pools := [("0", ["x"])]; extra := [] |}.

Definition empty_pool_profile : Profile :=
  {| templates := ["{a}"]; pools := [("a", [])]; extra := [] |}.


Definition numbered_pool_profile : Profile :=
  {| templates := ["Edit {1}"]; pools := [("1", ["sky"])]; extra := [] |}.

(** * Properties *)

(** ** Arithmetic of 32-bit words *)

Section Words.

Lemma u32_range x : is_uint32 (u32 x).
Proof. unfold is_uint32, u32. apply Z.mod_pos_bound. lia. Qed.

Lemma land_mask_u32 seed : Z.land seed 4294967295 = u32 seed.
Proof. unfold u32. change 4294967295 with (Z.ones 32). apply Z.land_ones. lia. Qed.

Lemma shiftr_range h k : 0 <= k -> is_uint32 h -> is_uint32 (Z.shiftr h k).
Proof.
  intros Hk [H0 H1]. unfold is_uint32. rewrite Z.shiftr_div_pow2 by lia. split.
  - apply Z.div_pos; lia.
  - apply Z.le_lt_trans with h; [|lia].
    apply Z.div_le_upper_bound; [lia|].
    assert (1 <= 2 ^ k) by (apply (Z.pow_le_mono_r 2 0 k); lia). nia.
Qed.

Lemma lxor_range a b : is_uint32 a -> is_uint32 b -> is_uint32 (Z.lxor a b).
Proof.
  intros [Ha0 Ha1] [Hb0 Hb1]. unfold is_uint32.
  assert (Hnn : 0 <= Z.lxor a b) by (apply Z.lxor_nonneg; lia).
  split; [exact Hnn|].
  destruct (Z.eq_dec (Z.lxor a b) 0) as [->|Hne]; [lia|].
  apply Z.log2_lt_pow2; [lia|].
  eapply Z.le_lt_trans; [apply Z.log2_lxor; lia|].
  apply Z.max_lub_lt.
  - destruct (Z.eq_dec a 0) as [->|]; [simpl; lia|]. apply Z.log2_lt_pow2; lia.
  - destruct (Z.eq_dec b 0) as [->|]; [simpl; lia|]. apply Z.log2_lt_pow2; lia.
Qed.

Lemma avalanche_range h : is_uint32 h -> is_uint32 (XXH32.avalanche h).
Proof.
  intros Hh. unfold XXH32.avalanche. cbv zeta.
  apply lxor_range; [apply u32_range|].
  apply shiftr_range; [lia|apply u32_range].
Qed.

Lemma consume_invariant (P : Z -> Prop) (word_step byte_step : Z -> Z -> Z) :
  (forall h w, P (word_step h w)) -> (forall h b, P (byte_step h b)) ->
  forall data h, P h -> P (XXH32.consume word_step byte_step h data).
Proof.
  intros Hw Hb data.
  induction data as [data IH] using (induction_ltof1 _ (@length Z)).
  unfold ltof in IH. intros h Hh.
  destruct data as [|b0 [|b1 [|b2 [|b3 rest]]]]; cbn [XXH32.consume].
  - exact Hh.
  - apply Hb.
  - apply Hb.
  - apply Hb.
  - apply IH; [cbn [length]; lia|apply Hw].
Qed.

Lemma finalize_range data h : is_uint32 h -> is_uint32 (XXH32.finalize h data).
Proof.
  unfold XXH32.finalize. apply consume_invariant; intros; apply u32_range.
Qed.

Lemma digest_range seed data : is_uint32 (XXH32.digest seed data).
Proof.
  unfold XXH32.digest. cbv zeta.
  destruct (16 <=? len data).
  - destruct (XXH32.stripes _ _ _ _ data) as [[[[v1 v2] v3] v4] tail].
    apply avalanche_range, finalize_range, u32_range.
  - apply avalanche_range, finalize_range, u32_range.
Qed.

End Words.

(** ** The number of combinations *)

Section Combinations.

Lemma fold_sizes (pools : list (list string)) (total : Z) :
  fold_left (fun total pool => total * len pool) pools total
  = total * product (map len pools).
Proof.
  revert total. induction pools as [|pool pools IH]; intros total; cbn [fold_left map product fold_right].
  - lia.
  - rewrite IH. fold (product (map len pools)). lia.
Qed.

(** C8.  [calculate_combinations(profile)], in the generator and in the
    validator alike, is the number of templates multiplied by the product of
    the sizes of the pools; a profile with three templates and two pools of
    four and five entries has sixty combinations. *)
Theorem calculate_combinations_product :
  (forall profile : Profile,
     DJZ_ZeroEDIT.calculate_combinations profile
     = len (templates profile) * product (map len (values (pools profile))))
  /\ (forall profile : Profile,
        validate_profile.calculate_combinations profile
        = len (templates profile) * product (map len (values (pools profile))))
  /\ (forall (t1 t2 t3 action target a1 a2 a3 a4 b1 b2 b3 b4 b5 : string)
             (rest : list (string * json)),
        let profile := {| templates := [t1; t2; t3];
                          pools := [(action, [a1; a2; a3; a4]);
                                    (target, [b1; b2; b3; b4; b5])];
                          extra := rest |} in
        DJZ_ZeroEDIT.calculate_combinations profile = 60
        /\ validate_profile.calculate_combinations profile = 60).
Proof.
  split; [|split].
  - intros profile. unfold DJZ_ZeroEDIT.calculate_combinations. apply fold_sizes.
  - intros profile. unfold validate_profile.calculate_combinations. apply fold_sizes.
  - intros. split; reflexivity.
Qed.

End Combinations.

(** ** The hash and the seed *)

Section Seed.

Lemma u32_idempotent x : u32 (u32 x) = u32 x.
Proof. unfold u32. apply Z.mod_mod. lia. Qed.

Lemma edit_hash_seed_mod (seed : Z) (coords : list Z) :
  DJZ_ZeroEDIT.edit_hash seed coords = DJZ_ZeroEDIT.edit_hash (seed mod 2 ^ 32) coords.
Proof.
  unfold DJZ_ZeroEDIT.edit_hash. rewrite !land_mask_u32.
  fold (u32 seed). now rewrite u32_idempotent.
Qed.

(** Two seeds that hash alike select alike. *)
Lemma select_components_seed (seed seed' idx : Z) (items : list (string * list string)) :
  (forall coords, DJZ_ZeroEDIT.edit_hash seed coords = DJZ_ZeroEDIT.edit_hash seed' coords) ->
  forall i components,
    DJZ_ZeroEDIT.select_components seed idx i items components
    = DJZ_ZeroEDIT.select_components seed' idx i items components.
Proof.
  intros Hh. induction items as [|[key pool] rest IH]; intros i components.
  - reflexivity.
  - cbn [DJZ_ZeroEDIT.select_components]. rewrite Hh.
    destruct (DJZ_ZeroEDIT.edit_hash seed' [idx; i + 1]) as [h|e]; [|reflexivity].
    cbn [mbind result_bind].
    destruct (DJZ_ZeroEDIT.hash_to_index h (len pool)) as [j|e]; [|reflexivity].
    cbn [mbind result_bind].
    destruct (getitem pool j) as [v|e]; [|reflexivity].
    cbn [mbind result_bind]. apply IH.
Qed.

(** C9.  The seed only matters modulo [2^32]: [edit_hash] masks it with
    [0xFFFFFFFF] before hashing, so the hash, and with it the generated
    prompt, is the same for [seed] and for [seed mod 2^32]. *)
Theorem seed_wraparound (seed : Z) :
  (forall coords : list Z,
     DJZ_ZeroEDIT.edit_hash seed coords = DJZ_ZeroEDIT.edit_hash (seed mod 2 ^ 32) coords)
  /\ (forall (index : Z) (profile : Profile),
        DJZ_ZeroEDIT.generate_edit_prompt seed index profile
        = DJZ_ZeroEDIT.generate_edit_prompt (seed mod 2 ^ 32) index profile).
Proof.
  split.
  - apply edit_hash_seed_mod.
  - intros index profile. unfold DJZ_ZeroEDIT.generate_edit_prompt. cbv zeta.
    rewrite <- edit_hash_seed_mod.
    rewrite (select_components_seed seed (seed mod 2 ^ 32)) by apply edit_hash_seed_mod.
    reflexivity.
Qed.

End Seed.

(** ** Determinism and totality of the generator *)

Section Generator.

(** Through the node: a second call, made with the cache the first call
    left, returns what the first returned and leaves the cache as it is. *)
Lemma generate_twice (fs : gmap string file) (cache : gmap string json)
    (profile : string) (seed index : Z) (prefix suffix : string) :
  let first := DJZ_ZeroEDIT.generate fs cache profile seed index prefix suffix in
  DJZ_ZeroEDIT.generate fs first.1 profile seed index prefix suffix = first.
Proof.
  cbv zeta. unfold DJZ_ZeroEDIT.generate.
  destruct (cache !! profile) as [data|] eqn:Hc.
  - destruct (as_profile data) eqn:Hp; cbn [fst]; rewrite Hc, Hp; reflexivity.
  - destruct (DJZ_ZeroEDIT.load_profile fs profile) as [data|e] eqn:Hl.
    + destruct (as_profile data) eqn:Hp; cbn [fst];
        rewrite lookup_insert_eq, Hp; reflexivity.
    + destruct (DJZ_ZeroEDIT.caught_on_load e); cbn [fst]; rewrite Hc; reflexivity.
Qed.

Lemma in_int32_above (k : N) : in_int32 (2 ^ 31 + Z.of_N k) = false.
Proof.
  unfold in_int32, int32_min, int32_max.
  apply andb_false_iff. right. apply Z.leb_gt. lia.
Qed.

(** Inside the range of a signed 32-bit integer the hash is total and
    returns an unsigned 32-bit integer. *)
Lemma edit_hash_total (seed index slot : Z) :
  in_int32 index = true -> in_int32 slot = true ->
  exists h, DJZ_ZeroEDIT.edit_hash seed [index; slot] = Ok h /\ is_uint32 h.
Proof.
  intros Hi Hs. unfold DJZ_ZeroEDIT.edit_hash. cbn [struct_pack_i].
  rewrite Hi, Hs. cbn [mbind result_bind].
  eexists. split; [reflexivity|apply digest_range].
Qed.

(** C4, at the failing inputs.  An index of [2^31] or more, which the node
    accepts up to [0xFFFFFFFF], does not fit the format ['i'] of
    [struct.pack]: the hash raises [struct.error], and so does the
    generator, for every seed and every profile. *)
Theorem index_above_int32_raises (seed : Z) (k : N) (profile : Profile) :
  DJZ_ZeroEDIT.edit_hash seed [2 ^ 31 + Z.of_N k; 0] = Raise StructError
  /\ DJZ_ZeroEDIT.generate_edit_prompt seed (2 ^ 31 + Z.of_N k) profile
     = Raise StructError.
Proof.
  assert (H : DJZ_ZeroEDIT.edit_hash seed [2 ^ 31 + Z.of_N k; 0] = Raise StructError).
  { unfold DJZ_ZeroEDIT.edit_hash. cbn [struct_pack_i].
    rewrite in_int32_above. reflexivity. }
  split; [exact H|].
  unfold DJZ_ZeroEDIT.generate_edit_prompt. cbv zeta. rewrite H. reflexivity.
Qed.

End Generator.

(** ** Unresolved placeholders *)

Section Unresolved.

Lemma select_components_keeps seed idx items :
  forall i components components',
    DJZ_ZeroEDIT.select_components seed idx i items components = Ok components' ->
    forall key, is_Some (components !! key) -> is_Some (components' !! key).
Proof.
  induction items as [|[k pool] rest IH]; intros i components components' H key Hk.
  - cbn in H. injection H as <-. exact Hk.
  - cbn [DJZ_ZeroEDIT.select_components] in H.
    destruct (DJZ_ZeroEDIT.edit_hash seed [idx; i + 1]) as [h|e]; [|discriminate].
    cbn [mbind result_bind] in H.
    destruct (DJZ_ZeroEDIT.hash_to_index h (len pool)) as [j|e]; [|discriminate].
    cbn [mbind result_bind] in H.
    destruct (getitem pool j) as [v|e]; [|discriminate].
    cbn [mbind result_bind] in H.
    apply (IH _ _ _ H).
    destruct (decide (k = key)) as [->|Hne].
    + rewrite lookup_insert_eq. eauto.
    + rewrite lookup_insert_ne by exact Hne. exact Hk.
Qed.

(** Every pool has its component once the loop is over: in the handler of
    [KeyError], [components.get(key, "[key]")] never returns its default. *)
Lemma select_components_covers seed idx items :
  forall i components components',
    DJZ_ZeroEDIT.select_components seed idx i items components = Ok components' ->
    forall key, key ∈ keys items -> is_Some (components' !! key).
Proof.
  induction items as [|[k pool] rest IH]; intros i components components' H key Hk.
  - cbn in Hk. inversion Hk.
  - cbn [DJZ_ZeroEDIT.select_components] in H.
    destruct (DJZ_ZeroEDIT.edit_hash seed [idx; i + 1]) as [h|e]; [|discriminate].
    cbn [mbind result_bind] in H.
    destruct (DJZ_ZeroEDIT.hash_to_index h (len pool)) as [j|e]; [|discriminate].
    cbn [mbind result_bind] in H.
    destruct (getitem pool j) as [v|e]; [|discriminate].
    cbn [mbind result_bind] in H.
    cbn [keys map fst] in Hk. apply elem_of_cons in Hk as [->|Hk].
    + apply (select_components_keeps _ _ _ _ _ _ H). rewrite lookup_insert_eq. eauto.
    + apply (IH _ _ _ H). exact Hk.
Qed.

End Unresolved.

(** ** The generator and the command-line tools *)

Section Tools.

Lemma stats_select_components seed idx items :
  forall i components,
    profile_stats.select_components true seed idx i items components
    = DJZ_ZeroEDIT.select_components seed idx i items components.
Proof.
  induction items as [|[key pool] rest IH]; intros i components.
  - reflexivity.
  - cbn [profile_stats.select_components DJZ_ZeroEDIT.select_components].
    change (profile_stats.hash_coords true seed [idx; i + 1])
      with (DJZ_ZeroEDIT.edit_hash seed [idx; i + 1]).
    destruct (DJZ_ZeroEDIT.edit_hash seed [idx; i + 1]) as [h|e]; [|reflexivity].
    cbn [mbind result_bind]. unfold DJZ_ZeroEDIT.hash_to_index.
    destruct (py_mod h (len pool)) as [j|e]; [|reflexivity].
    cbn [mbind result_bind].
    destruct (getitem pool j) as [v|e]; [|reflexivity].
    cbn [mbind result_bind]. apply IH.
Qed.

(** C5, as the code has it.  The stats tool, when [xxhash] is installed
    where it runs, returns exactly what the generator returns. *)
Theorem stats_tool_agrees (seed index : Z) (profile : Profile) :
  profile_stats.generate_prompt true seed index profile
  = DJZ_ZeroEDIT.generate_edit_prompt seed index profile.
Proof.
  unfold profile_stats.generate_prompt, DJZ_ZeroEDIT.generate_edit_prompt. cbv zeta.
  change (profile_stats.hash_coords true seed [index; 0])
    with (DJZ_ZeroEDIT.edit_hash seed [index; 0]).
  destruct (DJZ_ZeroEDIT.edit_hash seed [index; 0]) as [h|e]; [|reflexivity].
  cbn [mbind result_bind]. unfold DJZ_ZeroEDIT.hash_to_index.
  destruct (py_mod h (len (templates profile))) as [t|e]; [|reflexivity].
  cbn [mbind result_bind].
  destruct (getitem (templates profile) t) as [template|e]; [|reflexivity].
  cbn [mbind result_bind]. rewrite stats_select_components. reflexivity.
Qed.

(** The validator's test output for seed 42 and index 0 of the scenario
    profile is not the prompt the generator returns for them; nor is the
    output of the stats tool where [xxhash] is missing. *)
Lemma validator_output_differs :
  validate_profile.generate_test_output scenario_profile 42 5
  = Ok ["A q B t"; "C t"; "A p B s"; "A p B r"; "C t"]
  /\ DJZ_ZeroEDIT.generate_edit_prompt 42 0 scenario_profile = Ok "C r"
  /\ profile_stats.generate_prompt false 42 0 scenario_profile = Ok "A q B s"
  /\ validate_profile.test_output scenario_profile 42 0
     <> DJZ_ZeroEDIT.generate_edit_prompt 42 0 scenario_profile.
Proof.
  repeat split; try (vm_compute; reflexivity).
  vm_compute. discriminate.
Qed.

End Tools.

(** ** The loader and the profile cache *)

Section Loader.

Variable fs : gmap string file.

(** C6, as the code has it.  [load_profile] raises [FileNotFoundError] when
    nothing of that name exists in the directory; the error of [open] when
    what exists cannot be opened for reading, as a directory cannot; the
    [UnicodeDecodeError] of the decoder when the file is not UTF-8 text; the
    [JSONDecodeError] of the parser when the text is not valid JSON; and
    [ValueError] exactly when the object read has no member [templates], or
    no member [pools]; an object that has both is returned as it is,
    whatever the two members are. *)
Theorem load_profile_behaviour (profile_name : string) :
  (fs !! profile_name = None ->
     DJZ_ZeroEDIT.load_profile fs profile_name
     = Raise (FileNotFoundError ("Profile not found: " +:+ profile_name)))
  /\ (forall msg, fs !! profile_name = Some (Unopenable msg) ->
        DJZ_ZeroEDIT.load_profile fs profile_name = Raise (OSError msg))
  /\ (forall msg, fs !! profile_name = Some (Undecodable msg) ->
        DJZ_ZeroEDIT.load_profile fs profile_name = Raise (UnicodeDecodeError msg))
  /\ (forall msg, fs !! profile_name = Some (Malformed msg) ->
        DJZ_ZeroEDIT.load_profile fs profile_name = Raise (JSONDecodeError msg))
  /\ (forall members, fs !! profile_name = Some (Document (JObj members)) ->
        ("templates" ∉ keys members ->
           DJZ_ZeroEDIT.load_profile fs profile_name
           = Raise (ValueError ("Profile " +:+ profile_name +:+ " missing 'templates' field")))
        /\ ("templates" ∈ keys members -> "pools" ∉ keys members ->
              DJZ_ZeroEDIT.load_profile fs profile_name
              = Raise (ValueError ("Profile " +:+ profile_name +:+ " missing 'pools' field")))
        /\ ("templates" ∈ keys members -> "pools" ∈ keys members ->
              DJZ_ZeroEDIT.load_profile fs profile_name = Ok (JObj members))).
Proof.
  unfold DJZ_ZeroEDIT.load_profile. split; [|split; [|split; [|split]]].
  - intros ->. reflexivity.
  - intros msg ->. reflexivity.
  - intros msg ->. reflexivity.
  - intros msg ->. reflexivity.
  - intros members ->. cbn [DJZ_ZeroEDIT.contains mbind result_bind].
    split; [|split].
    + intros Ht. rewrite bool_decide_eq_false_2 by exact Ht. reflexivity.
    + intros Ht Hp. rewrite bool_decide_eq_true_2 by exact Ht.
      cbn [negb]. rewrite bool_decide_eq_false_2 by exact Hp. reflexivity.
    + intros Ht Hp. rewrite bool_decide_eq_true_2 by exact Ht.
      cbn [negb]. rewrite bool_decide_eq_true_2 by exact Hp. reflexivity.
Qed.

(** What [load_profile] raises is one of the three failures the
    specification names, the error of [open] or of the decoder, or the
    [TypeError] of [in] on a document that is a number, a boolean or null. *)
Lemma load_profile_failures (profile_name : string) (e : exn) :
  DJZ_ZeroEDIT.load_profile fs profile_name = Raise e ->
  (exists msg, load_failure e msg)
  \/ (exists msg, e = OSError msg \/ e = UnicodeDecodeError msg)
  \/ e = TypeError.
Proof.
  unfold DJZ_ZeroEDIT.load_profile.
  destruct (fs !! profile_name) as [[msg|msg|msg|doc]|].
  - intros [= <-]. right. left. eauto.
  - intros [= <-]. right. left. eauto.
  - intros [= <-]. left. eexists. constructor.
  - destruct (DJZ_ZeroEDIT.contains "templates" doc) as [[|]|e1] eqn:Ht;
      cbn [mbind result_bind negb].
    + destruct (DJZ_ZeroEDIT.contains "pools" doc) as [[|]|e2] eqn:Hp;
        cbn [mbind result_bind negb].
      * discriminate.
      * intros [= <-]. left. eexists. constructor.
      * intros [= <-]. right. right. destruct doc; cbn in Hp; congruence.
    + intros [= <-]. left. eexists. constructor.
    + intros [= <-]. right. right. destruct doc; cbn in Ht; congruence.
  - intros [= <-]. left. eexists. constructor.
Qed.

(** C10.  When the profile is not cached and loading it fails because the
    file is missing, is not valid JSON or lacks a required field,
    [generate] returns the error text in place of a prompt and leaves the
    cache as it was: the name stays uncached, and a later call loads
    again, from whatever the directory holds then. *)
Theorem load_failure_leaves_cache (cache : gmap string json) (profile : string)
    (seed prompt_index : Z) (prefix suffix : string) (e : exn) (msg : string) :
  cache !! profile = None ->
  DJZ_ZeroEDIT.load_profile fs profile = Raise e ->
  load_failure e msg ->
  let after := DJZ_ZeroEDIT.generate fs cache profile seed prompt_index prefix suffix in
  after = (cache, Ok ("[Error loading profile '" +:+ profile +:+ "': " +:+ msg +:+ "]"))
  /\ after.1 !! profile = None
  /\ (forall (fs' : gmap string file) (data : json),
        DJZ_ZeroEDIT.load_profile fs' profile = Ok data ->
        (DJZ_ZeroEDIT.generate fs' after.1 profile seed prompt_index prefix suffix).1
        = <[profile := data]> cache).
Proof.
  intros Hc Hl He. cbv zeta.
  assert (Hg : DJZ_ZeroEDIT.generate fs cache profile seed prompt_index prefix suffix
               = (cache, Ok ("[Error loading profile '" +:+ profile +:+ "': " +:+ msg +:+ "]"))).
  { unfold DJZ_ZeroEDIT.generate. rewrite Hc, Hl. destruct He; reflexivity. }
  rewrite Hg. cbn [fst]. split; [reflexivity|]. split; [exact Hc|].
  intros fs' data Hl'. unfold DJZ_ZeroEDIT.generate. rewrite Hc, Hl'.
  destruct (as_profile data); reflexivity.
Qed.

End Loader.

(** The loader returns a document whose [templates] is empty and whose
    [pools] is a number: no schema error is raised for it. *)
Lemma loader_accepts_hollow_document :
  schema_ok hollow_document = false
  /\ DJZ_ZeroEDIT.load_profile hollow_directory "hollow.json" = Ok hollow_document.
Proof. split; vm_compute; reflexivity. Qed.

(** The loader at the hollow document, and the node at a missing file. *)
Lemma load_profile_behaviour_witness :
  DJZ_ZeroEDIT.load_profile hollow_directory "hollow.json" = Ok hollow_document.
Proof.
  destruct (load_profile_behaviour hollow_directory "hollow.json")
    as (_ & _ & _ & _ & H).
  destruct (H [("templates", JArr []); ("pools", JNum 3)] eq_refl) as (_ & _ & H3).
  apply H3; cbn [keys map fst]; repeat constructor.
Defined.

Lemma load_failure_leaves_cache_witness :
  DJZ_ZeroEDIT.generate hollow_directory ∅ "absent.json" 7 3 "" ""
  = (∅, Ok "[Error loading profile 'absent.json': Profile not found: absent.json]").
Proof.
  apply (load_failure_leaves_cache hollow_directory ∅ "absent.json" 7 3 "" ""
           (FileNotFoundError "Profile not found: absent.json")
           "Profile not found: absent.json").
  - reflexivity.
  - vm_compute; reflexivity.
  - constructor.
Defined.

(** ** Rendering a template

    On a template made of brace-free text and of placeholders that name
    values, [str.format] is the substitution of the spec. *)

Section Format.

Variable kwargs : gmap string string.

Lemma append_cons (c : ascii) (s r : string) : String c s +:+ r = String c (s +:+ r).
Proof. reflexivity. Qed.

Lemma append_empty_r (s : string) : s +:+ "" = s.
Proof. induction s as [|c s IH]; [reflexivity|]. rewrite append_cons, IH. reflexivity. Qed.

Lemma append_assoc (a b c : string) : (a +:+ b) +:+ c = a +:+ (b +:+ c).
Proof. induction a as [|x a IH]; [reflexivity|]. rewrite !append_cons, IH. reflexivity. Qed.

Lemma text_char_spec (c : ascii) :
  text_char c = true -> (c =? "{")%char = false /\ (c =? "}")%char = false.
Proof.
  unfold text_char. rewrite negb_true_iff, orb_false_iff. tauto.
Qed.

Lemma name_char_spec (c : ascii) :
  name_char c = true ->
  (c =? "{")%char = false /\ (c =? "}")%char = false
  /\ ((c =? "!")%char || (c =? ":")%char || (c =? ".")%char || (c =? "[")%char) = false.
Proof.
  unfold name_char. rewrite negb_true_iff, !orb_false_iff. tauto.
Qed.

Lemma format_text (s rest : string) :
  all_chars text_char s = true ->
  format_go kwargs FLit (s +:+ rest)
  = r ← format_go kwargs FLit rest; Ok (s +:+ r).
Proof.
  induction s as [|c s IH]; intros Hs.
  - change ("" +:+ rest) with rest. destruct (format_go kwargs FLit rest); reflexivity.
  - cbn [all_chars] in Hs. apply andb_true_iff in Hs as [Hc Hs].
    apply text_char_spec in Hc as [Ho Hc].
    rewrite append_cons. cbn [format_go]. rewrite Ho, Hc, (IH Hs).
    destruct (format_go kwargs FLit rest); reflexivity.
Qed.

Lemma format_field (name rest : string) :
  forall acc : string,
    all_chars name_char name = true ->
    format_go kwargs (FField acc) (name +:+ String "}" rest)
    = v ← get_field kwargs (acc +:+ name);
      r ← format_go kwargs FLit rest; Ok (v +:+ r).
Proof.
  induction name as [|c name IH]; intros acc Hn.
  - change ("" +:+ String "}" rest) with (String "}" rest).
    rewrite append_empty_r. reflexivity.
  - cbn [all_chars] in Hn. apply andb_true_iff in Hn as [Hc Hn].
    apply name_char_spec in Hc as (Ho & Hc & Hq).
    rewrite append_cons. cbn [format_go]. rewrite Ho, Hc, Hq.
    rewrite (IH _ Hn), append_assoc. reflexivity.
Qed.

Lemma show_placeholder (name rest : string) :
  show_piece (Placeholder name) +:+ rest = String "{" (name +:+ String "}" rest).
Proof.
  cbn [show_piece]. change ("{" +:+ name +:+ "}") with (String "{" (name +:+ "}")).
  rewrite append_cons, append_assoc. reflexivity.
Qed.

Lemma format_open (s : string) :
  format_go kwargs FLit (String "{" s) = format_go kwargs FOpen s.
Proof. reflexivity. Qed.

Lemma format_placeholder (name rest v : string) :
  plain_name name = true -> kwargs !! name = Some v ->
  format_go kwargs FLit (show_piece (Placeholder name) +:+ rest)
  = r ← format_go kwargs FLit rest; Ok (v +:+ r).
Proof.
  unfold plain_name. rewrite !andb_true_iff, !negb_true_iff.
  intros (((Hne & Hchars) & Hdigits) & Hascii) Hv.
  rewrite show_placeholder, format_open.
  destruct name as [|c name]; [discriminate|].
  cbn [all_chars] in Hchars. apply andb_true_iff in Hchars as [Hc Hchars].
  apply name_char_spec in Hc as (Ho & Hc & Hq).
  rewrite append_cons. cbn [format_go]. rewrite Ho, Hc, Hq.
  rewrite (format_field name rest _ Hchars).
  change (("" +:+ String c "") +:+ name) with (String c name).
  unfold get_field. rewrite Hne, Hascii, Hdigits, Hv. reflexivity.
Qed.

Lemma str_format_plain (pieces : list piece) :
  plain kwargs pieces = true ->
  str_format (show pieces) kwargs = Ok (substitute kwargs pieces).
Proof.
  unfold str_format. induction pieces as [|[s|name] rest IH]; intros Hp.
  - reflexivity.
  - cbn [plain forallb plain_piece] in Hp. apply andb_true_iff in Hp as [Hs Hrest].
    cbn [show show_piece substitute]. rewrite (format_text _ _ Hs), (IH Hrest). reflexivity.
  - cbn [plain forallb plain_piece] in Hp. apply andb_true_iff in Hp as [Hn Hrest].
    apply andb_true_iff in Hn as [Hn Hv]. apply bool_decide_eq_true in Hv as [v Hv].
    cbn [show substitute]. rewrite (format_placeholder _ _ v Hn Hv), (IH Hrest), Hv.
    reflexivity.
Qed.

End Format.

(** ** The selection of the template and of the values *)

Section Selection.

Import DJZ_ZeroEDIT.

Variables seed index : Z.

Lemma select_in_range (items : list string) (h : Z) :
  items <> [] ->
  hash_to_index h (len items) = Ok (indexOf h (len items))
  /\ getitem items (indexOf h (len items)) = Ok (at_index items (indexOf h (len items))).
Proof.
  intros Hne. unfold hash_to_index, py_mod, indexOf, getitem, at_index, len.
  assert (Hlen : 0 < Z.of_nat (length items)) by (destruct items; [contradiction|cbn; lia]).
  pose proof (Z.mod_pos_bound h _ Hlen) as Hj.
  set (j := h mod Z.of_nat (length items)) in *.
  destruct (Z.eqb_spec (Z.of_nat (length items)) 0) as [E|_]; [lia|].
  split; [reflexivity|].
  destruct (Z.ltb_spec j 0) as [E|_]; [lia|].
  destruct (Z.ltb_spec j 0) as [E|_]; [lia|].
  rewrite nth_lookup.
  destruct (items !! Z.to_nat j) as [x|] eqn:Hx; [reflexivity|].
  apply lookup_ge_None in Hx. lia.
Qed.

Lemma select_components_selected (items : list (string * list string)) :
  Forall (fun kp => kp.2 <> []) items ->
  forall (i : Z) (components : gmap string string),
    select_components seed index i items components
    = chosen ← selected_from seed index (i + 1) items;
      Ok (fold_left set_item chosen components).
Proof.
  induction 1 as [|[key pool] rest Hne _ IH]; intros i components.
  - reflexivity.
  - cbn [select_components selected_from].
    destruct (edit_hash seed [index; i + 1]) as [h|e]; [|reflexivity].
    cbn [mbind result_bind].
    destruct (select_in_range pool h Hne) as [Hj Hv].
    rewrite Hj. cbn [mbind result_bind]. rewrite Hv.
    cbn [mbind result_bind]. rewrite IH.
    destruct (selected_from seed index (i + 1 + 1) rest); reflexivity.
Qed.

Lemma fold_set_item (chosen : list (string * string)) :
  NoDup (keys chosen) ->
  forall m : gmap string string,
    fold_left set_item chosen m = list_to_map chosen ∪ m.
Proof.
  induction chosen as [|[k v] rest IH]; intros Hnd m.
  - cbn. rewrite (left_id_L ∅ (∪)). reflexivity.
  - change (keys ((k, v) :: rest)) with (k :: keys rest) in Hnd.
    apply NoDup_cons in Hnd as [Hk Hnd].
    cbn [fold_left list_to_map foldr]. rewrite (IH Hnd). unfold set_item. cbn [fst snd].
    rewrite <- insert_union_l. symmetry. apply insert_union_r.
    apply not_elem_of_list_to_map_1. exact Hk.
Qed.

Lemma selected_from_keys (items : list (string * list string)) :
  forall (position : Z) (chosen : list (string * string)),
    selected_from seed index position items = Ok chosen ->
    keys chosen = keys items.
Proof.
  induction items as [|[key pool] rest IH]; intros position chosen H.
  - injection H as <-. reflexivity.
  - cbn [selected_from] in H.
    destruct (edit_hash seed [index; position]) as [h|e]; [|discriminate].
    cbn [mbind result_bind] in H.
    destruct (selected_from seed index (position + 1) rest) as [others|e] eqn:Ho;
      [|discriminate].
    injection H as <-. cbn [keys map fst]. f_equal. apply (IH _ _ Ho).
Qed.

Lemma selected_from_lookup (items : list (string * list string)) :
  forall (position : Z) (chosen : list (string * string)),
    selected_from seed index position items = Ok chosen ->
    forall (i : nat) (key : string) (pool : list string),
      items !! i = Some (key, pool) ->
      exists h, edit_hash seed [index; position + Z.of_nat i] = Ok h
        /\ chosen !! i = Some (key, at_index pool (indexOf h (len pool))).
Proof.
  induction items as [|[k p] rest IH]; intros position chosen H i key pool Hi;
    [discriminate|].
  cbn [selected_from] in H.
  destruct (edit_hash seed [index; position]) as [h|e] eqn:Hh; [|discriminate].
  cbn [mbind result_bind] in H.
  destruct (selected_from seed index (position + 1) rest) as [others|e] eqn:Ho;
    [|discriminate].
  injection H as <-. destruct i as [|i]; cbn in Hi.
  - injection Hi as -> ->. exists h. rewrite Z.add_0_r. split; [exact Hh|reflexivity].
  - destruct (IH _ _ Ho i key pool Hi) as (h' & Hh' & Hc).
    exists h'. split; [|exact Hc].
    replace (position + Z.of_nat (S i)) with (position + 1 + Z.of_nat i) by lia.
    exact Hh'.
Qed.

Lemma generate_edit_prompt_selection (profile : Profile) :
  templates profile <> [] ->
  Forall (fun kp => kp.2 <> []) (pools profile) ->
  NoDup (keys (pools profile)) ->
  generate_edit_prompt seed index profile
  = (th ← edit_hash seed [index; 0];
     chosen ← selected_values seed index (pools profile);
     render (pools profile) (list_to_map chosen)
            (at_index (templates profile) (indexOf th (len (templates profile))))).
Proof.
  intros Ht Hp Hnd.
  unfold generate_edit_prompt, selected_values. cbv zeta.
  destruct (edit_hash seed [index; 0]) as [th|e]; [|reflexivity].
  cbn [mbind result_bind].
  destruct (select_in_range (templates profile) th Ht) as [Hj Hv].
  rewrite Hj. cbn [mbind result_bind]. rewrite Hv.
  cbn [mbind result_bind].
  rewrite (select_components_selected _ Hp). change (0 + 1) with 1.
  destruct (selected_from seed index 1 (pools profile)) as [chosen|e] eqn:Hc;
    [|reflexivity].
  cbn [mbind result_bind]. rewrite fold_set_item.
  - rewrite (right_id_L ∅ (∪)). reflexivity.
  - rewrite (selected_from_keys _ _ _ Hc). exact Hnd.
Qed.

Lemma selected_values_lookup (pools : list (string * list string))
    (chosen : list (string * string)) :
  NoDup (keys pools) ->
  selected_values seed index pools = Ok chosen ->
  forall (i : nat) (key : string) (pool : list string),
    pools !! i = Some (key, pool) ->
    exists h, edit_hash seed [index; Z.of_nat i + 1] = Ok h
      /\ (list_to_map chosen : gmap string string) !! key
         = Some (at_index pool (indexOf h (len pool))).
Proof.
  intros Hnd Hc i key pool Hi.
  destruct (selected_from_lookup _ _ _ Hc i key pool Hi) as (h & Hh & Hl).
  exists h. split; [rewrite Z.add_comm; exact Hh|].
  apply elem_of_list_to_map_1.
  - change (NoDup (keys chosen)). rewrite (selected_from_keys _ _ _ Hc). exact Hnd.
  - eapply list_elem_of_lookup_2. exact Hl.
Qed.

End Selection.

(** ** The validator *)

Section Validator.

Import validate_profile.

Lemma ci_duplicate_nil : ~ ci_duplicate [].
Proof. intros (i & j & a & b & _ & H & _). discriminate. Qed.

Lemma ci_duplicate_cons (item : string) (rest : list string) :
  ci_duplicate (item :: rest)
  <-> (exists x, x ∈ rest /\ lower x = lower item) \/ ci_duplicate rest.
Proof.
  split.
  - intros (i & j & a & b & Hij & Hi & Hj & Hab).
    destruct j as [|j]; [lia|]. cbn in Hj.
    destruct i as [|i]; cbn in Hi.
    + injection Hi as <-. left. exists b. split; [|congruence].
      eapply list_elem_of_lookup_2; eassumption.
    + right. exists i, j, a, b. repeat split; try assumption. lia.
  - intros [(x & Hx & Hl)|(i & j & a & b & Hij & Hi & Hj & Hab)].
    + apply list_elem_of_lookup_1 in Hx as [j Hj].
      exists 0%nat, (S j), item, x. repeat split; try assumption; [lia|congruence].
    + exists (S i), (S j), a, b. repeat split; try assumption. lia.
Qed.

Lemma check_duplicates_nil (pool_name : string) (items : list string) :
  forall seen : gset string,
    check_duplicates pool_name seen items = []
    <-> (forall x, x ∈ items -> lower x ∉ seen) /\ ~ ci_duplicate items.
Proof.
  induction items as [|item rest IH]; intros seen; cbn [check_duplicates].
  - split; [|reflexivity]. intros _. split; [|apply ci_duplicate_nil].
    intros x Hx. inversion Hx.
  - rewrite app_nil, IH, ci_duplicate_cons. split.
    + intros (Hhead & Hrest & Hnd). case_bool_decide; [discriminate|]. split.
      * intros x [->|Hx]%elem_of_cons; [assumption|].
        intros Hs. apply (Hrest x Hx), elem_of_union. right. exact Hs.
      * intros [(x & Hx & Hl)|Hd]; [|contradiction].
        apply (Hrest x Hx), elem_of_union. left. apply elem_of_singleton. exact Hl.
    + intros (Hall & Hnd). split; [|split].
      * rewrite bool_decide_eq_false_2; [reflexivity|]. apply Hall. left.
      * intros x Hx [Hs|Hs]%elem_of_union.
        -- apply elem_of_singleton in Hs. apply Hnd. left. eauto.
        -- revert Hs. apply Hall. right. exact Hx.
      * intros Hd. apply Hnd. right. exact Hd.
Qed.


Lemma check_blanks_nil (pool_name : string) (items : list string) :
  forall i : Z,
    check_blanks pool_name i items = []
    <-> forall x, x ∈ items -> is_blank x = false.
Proof.
  induction items as [|item rest IH]; intros i; cbn [check_blanks].
  - split; [|reflexivity]. intros _ x Hx. inversion Hx.
  - rewrite app_nil, IH. split.
    + intros (Hhead & Hrest) x [->|Hx]%elem_of_cons; [|apply Hrest; exact Hx].
      destruct (is_blank item); [discriminate|reflexivity].
    + intros Hall. split.
      * rewrite (Hall item) by left. reflexivity.
      * intros x Hx. apply Hall. right. exact Hx.
Qed.

Lemma validate_pool_nil (pool_name : string) (items : list string) :
  validate_pool pool_name items = []
  <-> items <> [] /\ ~ ci_duplicate items /\ (forall x, x ∈ items -> is_blank x = false).
Proof.
  unfold validate_pool. destruct items as [|item rest].
  - split; [discriminate|]. intros (H & _). contradiction.
  - rewrite app_nil, check_duplicates_nil, check_blanks_nil. split.
    + intros ((_ & Hd) & Hb). repeat split; [discriminate|assumption..].
    + intros (_ & Hd & Hb). repeat split; [|assumption..].
      intros x _. apply not_elem_of_empty.
Qed.


Lemma validate_pools_nil (profile : Profile) :
  validate_pools profile = []
  <-> forall pool_name items, (pool_name, items) ∈ pools profile ->
        validate_pool pool_name items = [].
Proof.
  unfold validate_pools. rewrite concat_nil_Forall, List.Forall_forall. split.
  - intros H pool_name items Hp. apply H. apply in_map_iff.
    exists (pool_name, items). split; [reflexivity|apply list_elem_of_In; exact Hp].
  - intros H x ([pool_name items] & <- & Hp)%in_map_iff.
    apply H. apply list_elem_of_In. exact Hp.
Qed.

Lemma check_template_nil (pool_names : gset string) (i : Z) (template : string) :
  check_template pool_names i template = []
  <-> forall ph, ph ∈ placeholders template -> ph ∈ pool_names.
Proof.
  unfold check_template. rewrite concat_nil_Forall, List.Forall_forall. split.
  - intros H ph Hph. destruct (decide (ph ∈ pool_names)) as [|Hn]; [assumption|].
    specialize (H (if bool_decide (ph ∈ pool_names) then []
                   else ["Template " +:+ str_of_int i
                           +:+ " references undefined pool '" +:+ ph +:+ "'"])).
    rewrite bool_decide_eq_false_2 in H by exact Hn.
    exfalso. assert (Hnil : ["Template " +:+ str_of_int i
                           +:+ " references undefined pool '" +:+ ph +:+ "'"] = []); [|discriminate].
    apply H. apply in_map_iff. exists ph.
    rewrite bool_decide_eq_false_2 by exact Hn.
    split; [reflexivity|apply list_elem_of_In; exact Hph].
  - intros H x (ph & <- & Hph)%in_map_iff.
    rewrite bool_decide_eq_true_2; [reflexivity|]. apply H, list_elem_of_In, Hph.
Qed.



Lemma check_templates_nil (pool_names : gset string) (ts : list string) :
  forall i : Z,
    check_templates pool_names i ts = []
    <-> forall template ph, template ∈ ts -> ph ∈ placeholders template -> ph ∈ pool_names.
Proof.
  induction ts as [|t rest IH]; intros i; cbn [check_templates].
  - split; [|reflexivity]. intros _ template ph H. inversion H.
  - rewrite app_nil, check_template_nil, IH. split.
    + intros (Ht & Hr) template ph [->|H]%elem_of_cons; [apply Ht|apply Hr; exact H].
    + intros H. split.
      * intros ph. apply H. left.
      * intros template ph Hin. apply H. right. exact Hin.
Qed.

End Validator.

(** ** Partial substitution

    What the handler of [KeyError] makes of a well-formed template: the
    [replace] of one pool's placeholder, then the fold over the pools. *)

Section Replace.

Variables old_key new : string.
Hypothesis key_free : brace_free old_key = true.

Local Abbreviation old := (braces old_key).

Lemma prefix_empty (s : string) : String.prefix "" s = true.
Proof. destruct s; reflexivity. Qed.

Lemma prefix_cons (a b : ascii) (s1 s2 : string) :
  String.prefix (String a s1) (String b s2)
  = (a =? b)%char && String.prefix s1 s2.
Proof.
  cbn [String.prefix]. destruct (ascii_dec a b) as [->|Hne].
  - rewrite Ascii.eqb_refl. reflexivity.
  - apply Ascii.eqb_neq in Hne. rewrite Hne. reflexivity.
Qed.

Lemma replace_skip (s r : string) :
  replace_go old new (String.length s) (s +:+ r) = replace_go old new O r.
Proof.
  induction s as [|c s IH].
  - reflexivity.
  - rewrite append_cons. cbn [String.length replace_go]. exact IH.
Qed.

Lemma old_cons : old = String "{" (old_key +:+ "}").
Proof. reflexivity. Qed.

Lemma replace_other (c : ascii) (s : string) :
  (c =? "{")%char = false ->
  replace_go old new O (String c s) = String c (replace_go old new O s).
Proof.
  intros Hc. cbn [replace_go]. rewrite old_cons, prefix_cons.
  rewrite Ascii.eqb_sym, Hc. reflexivity.
Qed.

Lemma replace_text (s r : string) :
  brace_free s = true ->
  replace_go old new O (s +:+ r) = s +:+ replace_go old new O r.
Proof.
  induction s as [|c s IH]; intros Hs.
  - reflexivity.
  - cbn [brace_free all_chars] in Hs. apply andb_true_iff in Hs as [Hc Hs].
    unfold text_char in Hc. apply negb_true_iff, orb_false_iff in Hc as [Hc _].
    rewrite !append_cons, (replace_other _ _ Hc), (IH Hs). reflexivity.
Qed.

(** Between brace-free names, [key}] starts [name}...] only when the names
    are the same. *)
Lemma prefix_name (name r : string) :
  brace_free name = true ->
  forall key, brace_free key = true ->
    String.prefix (key +:+ "}") (name +:+ String "}" r) = String.eqb name key.
Proof.
  induction name as [|c name IH]; intros Hn key Hk.
  - destruct key as [|k key].
    + cbn. apply prefix_empty.
    + rewrite append_cons.
      change ("" +:+ String "}" r) with (String "}" r). rewrite prefix_cons.
      cbn [brace_free all_chars] in Hk. apply andb_true_iff in Hk as [Hk _].
      unfold text_char in Hk. apply negb_true_iff, orb_false_iff in Hk as [_ Hk].
      rewrite Hk. reflexivity.
  - cbn [brace_free all_chars] in Hn. apply andb_true_iff in Hn as [Hc Hn].
    destruct key as [|k key].
    + change ("" +:+ "}") with (String "}" ""). rewrite append_cons, prefix_cons.
      unfold text_char in Hc. apply negb_true_iff, orb_false_iff in Hc as [_ Hc].
      rewrite Ascii.eqb_sym, Hc. reflexivity.
    + cbn [brace_free all_chars] in Hk. apply andb_true_iff in Hk as [_ Hk].
      rewrite !append_cons, prefix_cons, (IH Hn key Hk).
      cbn [String.eqb]. rewrite (Ascii.eqb_sym k c).
      destruct (c =? k)%char; reflexivity.
Qed.

Lemma braces_append (name r : string) :
  braces name +:+ r = String "{" (name +:+ String "}" r).
Proof.
  unfold braces. change ("{" +:+ name +:+ "}") with (String "{" (name +:+ "}")).
  rewrite append_cons, append_assoc. reflexivity.
Qed.

Lemma replace_placeholder (name r : string) :
  brace_free name = true ->
  replace_go old new O (braces name +:+ r)
  = (if String.eqb name old_key then new else braces name)
    +:+ replace_go old new O r.
Proof.
  intros Hn.
  rewrite (braces_append name r). cbn [replace_go].
  rewrite old_cons, prefix_cons, Ascii.eqb_refl.
  cbn [andb]. rewrite (prefix_name name r Hn old_key key_free).
  destruct (String.eqb_spec name old_key) as [->|Hne].
  - cbn [String.length Nat.pred].
    replace (old_key +:+ String "}" r) with ((old_key +:+ "}") +:+ r)
      by (rewrite append_assoc; reflexivity).
    rewrite replace_skip. reflexivity.
  - cbn [andb]. rewrite (replace_text name _ Hn).
    rewrite (replace_other "}" r eq_refl).
    rewrite braces_append. reflexivity.
Qed.

End Replace.

Section Partial.

Variable components : gmap string string.

Lemma replace_show (key value : string) (pieces : list piece) :
  brace_free key = true -> pieces_free pieces = true ->
  str_replace (braces key) value (show pieces)
  = show (map (resolve key value) pieces).
Proof.
  intros Hk. unfold str_replace.
  induction pieces as [|[s|name] rest IH]; intros Hp.
  - reflexivity.
  - cbn [pieces_free forallb piece_text] in Hp. apply andb_true_iff in Hp as [Hs Hp].
    cbn [show show_piece map resolve].
    rewrite (replace_text key value s _ Hs), (IH Hp). reflexivity.
  - cbn [pieces_free forallb piece_text] in Hp. apply andb_true_iff in Hp as [Hn Hp].
    cbn [show map]. change (show_piece (Placeholder name)) with (braces name).
    rewrite (replace_placeholder key value Hk name _ Hn), (IH Hp).
    cbn [resolve]. destruct (String.eqb name key); reflexivity.
Qed.

Lemma resolve_free (key value : string) (pieces : list piece) :
  brace_free value = true -> pieces_free pieces = true ->
  pieces_free (map (resolve key value) pieces) = true.
Proof.
  intros Hv. induction pieces as [|pc rest IH]; intros Hp; [reflexivity|].
  cbn [pieces_free forallb map] in *. apply andb_true_iff in Hp as [Hpc Hp].
  apply andb_true_iff. split; [|apply IH; exact Hp].
  destruct pc as [s|name]; cbn [resolve]; [exact Hpc|].
  destruct (String.eqb name key); [exact Hv|exact Hpc].
Qed.

Lemma partial_format_show (ks : list string) :
  (forall key, key ∈ ks ->
     brace_free key = true /\ brace_free (handler_value components key) = true) ->
  forall pieces : list piece,
    pieces_free pieces = true ->
    fold_left
      (fun template key =>
         str_replace ("{" +:+ key +:+ "}")
                     (default ("[" +:+ key +:+ "]") (components !! key)) template)
      ks (show pieces)
    = show (map (resolve_all components ks) pieces).
Proof.
  induction ks as [|k ks IH]; intros Hks pieces Hp.
  - cbn [fold_left]. unfold resolve_all. cbn [fold_left]. rewrite map_id. reflexivity.
  - cbn [fold_left].
    destruct (Hks k) as [Hk Hv]; [left|].
    change ("{" +:+ k +:+ "}") with (braces k).
    change (default ("[" +:+ k +:+ "]") (components !! k)) with (handler_value components k).
    rewrite (replace_show k _ pieces Hk Hp), IH.
    + rewrite map_map. reflexivity.
    + intros key Hkey. apply Hks. right. exact Hkey.
    + apply resolve_free; assumption.
Qed.

Lemma resolve_all_text (ks : list string) (s : string) :
  resolve_all components ks (Text s) = Text s.
Proof. unfold resolve_all. induction ks as [|k ks IH]; [reflexivity|]. exact IH. Qed.

Lemma resolve_all_placeholder (ks : list string) (name : string) :
  resolve_all components ks (Placeholder name)
  = if bool_decide (name ∈ ks) then Text (handler_value components name)
    else Placeholder name.
Proof.
  induction ks as [|k ks IH].
  - reflexivity.
  - change (resolve_all components (k :: ks) (Placeholder name))
      with (resolve_all components ks
              (resolve k (handler_value components k) (Placeholder name))).
    cbn [resolve]. destruct (String.eqb_spec name k) as [->|Hne].
    + rewrite resolve_all_text, bool_decide_eq_true_2 by left. reflexivity.
    + rewrite IH. destruct (decide (name ∈ ks)) as [Hin|Hout].
      * rewrite !bool_decide_eq_true_2; [reflexivity|right; exact Hin|exact Hin].
      * rewrite !bool_decide_eq_false_2; [reflexivity| |exact Hout].
        intros [?|?]%elem_of_cons; contradiction.
Qed.

Lemma show_resolved (ks : list string) (pieces : list piece) :
  (forall key, key ∈ ks <-> is_Some (components !! key)) ->
  show (map (resolve_all components ks) pieces) = fill components braces pieces.
Proof.
  intros Hdom. induction pieces as [|[s|name] rest IH].
  - reflexivity.
  - cbn [map show fill]. rewrite resolve_all_text, IH. reflexivity.
  - cbn [map show fill]. rewrite resolve_all_placeholder, IH.
    destruct (decide (name ∈ ks)) as [Hin|Hout].
    + rewrite bool_decide_eq_true_2 by exact Hin.
      apply Hdom in Hin as [v Hv]. unfold handler_value. rewrite Hv. reflexivity.
    + rewrite bool_decide_eq_false_2 by exact Hout.
      destruct (components !! name) as [v|] eqn:Hv; [|reflexivity].
      exfalso. apply Hout, Hdom. eauto.
Qed.

Lemma format_unresolved (name rest : string) :
  plain_name name = true -> components !! name = None ->
  format_go components FLit (show_piece (Placeholder name) +:+ rest)
  = Raise (KeyError name).
Proof.
  unfold plain_name. rewrite !andb_true_iff, !negb_true_iff.
  intros (((Hne & Hchars) & Hdigits) & Hascii) Hv.
  rewrite show_placeholder, format_open.
  destruct name as [|c name]; [discriminate|].
  cbn [all_chars] in Hchars. apply andb_true_iff in Hchars as [Hc Hchars].
  apply name_char_spec in Hc as (Ho & Hc & Hq).
  rewrite append_cons. cbn [format_go]. rewrite Ho, Hc, Hq.
  rewrite (format_field components name rest _ Hchars).
  change (("" +:+ String c "") +:+ name) with (String c name).
  unfold get_field. rewrite Hne, Hascii, Hdigits, Hv. reflexivity.
Qed.

Lemma str_format_well_formed (marks : string -> string) (pieces : list piece) :
  well_formed pieces = true ->
  str_format (show pieces) components = Ok (fill components marks pieces)
  \/ exists name, str_format (show pieces) components = Raise (KeyError name).
Proof.
  unfold str_format. induction pieces as [|[s|name] rest IH]; intros Hw.
  - left. reflexivity.
  - cbn [well_formed forallb well_formed_piece] in Hw. apply andb_true_iff in Hw as [Hs Hw].
    cbn [show show_piece fill]. rewrite (format_text components _ _ Hs).
    destruct (IH Hw) as [->|[n ->]]; [left|right; exists n]; reflexivity.
  - cbn [well_formed forallb well_formed_piece] in Hw. apply andb_true_iff in Hw as [Hn Hw].
    cbn [show fill]. destruct (components !! name) as [v|] eqn:Hv.
    + rewrite (format_placeholder components _ _ v Hn Hv).
      destruct (IH Hw) as [->|[n ->]]; [left|right; exists n]; reflexivity.
    + right. exists name. apply format_unresolved; assumption.
Qed.

Lemma plain_name_free (name : string) : plain_name name = true -> brace_free name = true.
Proof.
  unfold plain_name, brace_free. rewrite !andb_true_iff. intros (((_ & Hc) & _) & _).
  induction name as [|c name IH]; [reflexivity|].
  cbn [all_chars] in *. apply andb_true_iff in Hc as [Hc Hn].
  apply andb_true_iff. split; [|apply IH; exact Hn].
  apply name_char_spec in Hc as (Ho & Hc & _). unfold text_char. rewrite Ho, Hc. reflexivity.
Qed.

Lemma well_formed_free (pieces : list piece) :
  well_formed pieces = true -> pieces_free pieces = true.
Proof.
  induction pieces as [|pc rest IH]; intros Hw; [reflexivity|].
  cbn [well_formed pieces_free forallb] in *. apply andb_true_iff in Hw as [Hpc Hw].
  apply andb_true_iff. split; [|apply IH; exact Hw].
  destruct pc as [s|name]; [exact Hpc|apply plain_name_free; exact Hpc].
Qed.

(** What the generator renders from a well-formed template. *)
Lemma render_well_formed (pools : list (string * list string)) (pieces : list piece) :
  well_formed pieces = true ->
  (forall key, key ∈ keys pools <-> is_Some (components !! key)) ->
  (forall key, key ∈ keys pools -> brace_free key = true) ->
  (forall key v, components !! key = Some v -> brace_free v = true) ->
  DJZ_ZeroEDIT.render pools components (show pieces)
  = Ok (fill components braces pieces).
Proof.
  intros Hw Hdom Hkeys Hvals. unfold DJZ_ZeroEDIT.render.
  destruct (str_format_well_formed braces pieces Hw) as [->|[name ->]]; [reflexivity|].
  unfold DJZ_ZeroEDIT.partial_format.
  rewrite partial_format_show.
  - rewrite (show_resolved _ _ Hdom). reflexivity.
  - intros key Hkey. split; [apply Hkeys; exact Hkey|].
    apply Hdom in Hkey as [v Hv]. unfold handler_value. rewrite Hv. cbn.
    apply (Hvals key v Hv).
  - apply well_formed_free. exact Hw.
Qed.

End Partial.

Section Tolerated.

Import DJZ_ZeroEDIT.

Lemma at_index_elem (items : list string) (h : Z) :
  items <> [] -> at_index items (indexOf h (len items)) ∈ items.
Proof.
  intros Hne. unfold at_index, indexOf, len.
  assert (Hlen : 0 < Z.of_nat (length items)) by (destruct items; [contradiction|cbn; lia]).
  pose proof (Z.mod_pos_bound h _ Hlen) as Hj.
  apply list_elem_of_In, nth_In. lia.
Qed.

Lemma selected_from_entries (seed index : Z) (items : list (string * list string)) :
  Forall (fun kp => kp.2 <> []) items ->
  forall (position : Z) (chosen : list (string * string)),
    selected_from seed index position items = Ok chosen ->
    forall key v, (key, v) ∈ chosen -> exists pool, (key, pool) ∈ items /\ v ∈ pool.
Proof.
  induction 1 as [|[k pool] rest Hne _ IH]; intros position chosen H key v Hin.
  - injection H as <-. inversion Hin.
  - cbn [selected_from] in H.
    destruct (edit_hash seed [index; position]) as [h|e]; [|discriminate].
    cbn [mbind result_bind] in H.
    destruct (selected_from seed index (position + 1) rest) as [others|e] eqn:Ho;
      [|discriminate].
    injection H as <-. apply elem_of_cons in Hin as [Heq|Hin].
    + injection Heq as -> ->. exists pool. split; [left|].
      apply at_index_elem. exact Hne.
    + destruct (IH _ _ Ho key v Hin) as (p & Hp & Hv).
      exists p. split; [right; exact Hp|exact Hv].
Qed.

(** What the generator returns for a well-formed template: the values in
    place of the placeholders that name a pool, the other placeholders as
    they are written. *)
Lemma generate_well_formed (seed index th : Z) (profile : Profile)
    (chosen : list (string * string)) (pieces : list piece) :
  templates profile <> [] ->
  Forall (fun kp => kp.2 <> []) (pools profile) ->
  NoDup (keys (pools profile)) ->
  Forall (fun kp => brace_free kp.1 = true
                    /\ Forall (fun v => brace_free v = true) kp.2) (pools profile) ->
  edit_hash seed [index; 0] = Ok th ->
  selected_values seed index (pools profile) = Ok chosen ->
  at_index (templates profile) (indexOf th (len (templates profile))) = show pieces ->
  well_formed pieces = true ->
  generate_edit_prompt seed index profile
  = Ok (fill (list_to_map chosen) braces pieces).
Proof.
  intros Ht Hne Hnd Hfree Hth Hc Htemplate Hw.
  rewrite (generate_edit_prompt_selection seed index profile Ht Hne Hnd), Hth.
  cbn [mbind result_bind]. rewrite Hc. cbn [mbind result_bind]. rewrite Htemplate.
  assert (Hkeys : keys chosen = keys (pools profile))
    by exact (selected_from_keys _ _ _ _ _ Hc).
  rewrite List.Forall_forall in Hfree.
  apply render_well_formed; [exact Hw|..].
  - intros key. rewrite <- Hkeys. split.
    + intros Hin. destruct (list_to_map chosen !! key) as [v|] eqn:Hv; [eauto|].
      apply not_elem_of_list_to_map in Hv. contradiction.
    + intros [v Hv]. destruct (decide (key ∈ keys chosen)) as [|Hout]; [assumption|].
      apply (not_elem_of_list_to_map_1 (M := gmap string)) in Hout. congruence.
  - intros key (kp & <- & Hin)%list_elem_of_In%in_map_iff. apply (Hfree kp Hin).
  - intros key v Hv. apply elem_of_list_to_map_2 in Hv.
    destruct (selected_from_entries _ _ _ Hne _ _ Hc key v Hv) as (pool & Hp & Hin).
    apply list_elem_of_In in Hp. destruct (Hfree _ Hp) as [_ Hvals].
    rewrite List.Forall_forall in Hvals. apply Hvals, list_elem_of_In, Hin.
Qed.

(** Inside the range of a signed 32-bit integer every pool gets its value. *)
Lemma selected_from_total (seed index : Z) (items : list (string * list string)) :
  in_int32 index = true ->
  forall position : Z,
    0 <= position -> position + len items <= int32_max + 1 ->
    exists chosen, selected_from seed index position items = Ok chosen.
Proof.
  intros Hi. induction items as [|[key pool] rest IH]; intros position H0 Hmax.
  - exists []. reflexivity.
  - unfold len in Hmax. cbn [length] in Hmax.
    assert (Hp : in_int32 position = true).
    { unfold in_int32, int32_min, int32_max in *.
      apply andb_true_iff. split; [apply Z.leb_le|apply Z.leb_le]; lia. }
    destruct (edit_hash_total seed index position Hi Hp) as (h & Hh & _).
    destruct (IH (position + 1)) as [others Ho]; [lia|unfold len; lia|].
    cbn [selected_from]. rewrite Hh. cbn [mbind result_bind]. rewrite Ho.
    eexists. reflexivity.
Qed.


End Tolerated.


(** ** The packing of the coordinates *)

Section Packing.

Import DJZ_ZeroEDIT.

Lemma struct_pack_ok (coords : list Z) :
  forallb in_int32 coords = true -> exists data, struct_pack_i coords = Ok data.
Proof.
  induction coords as [|c rest IH]; intros H.
  - exists []. reflexivity.
  - cbn [forallb] in H. apply andb_true_iff in H as [Hc Hr].
    destruct (IH Hr) as [data Hd]. cbn [struct_pack_i]. rewrite Hc, Hd.
    eexists. reflexivity.
Qed.

Lemma struct_pack_raises (coords : list Z) :
  forallb in_int32 coords = false -> struct_pack_i coords = Raise StructError.
Proof.
  induction coords as [|c rest IH]; intros H; [discriminate|].
  cbn [forallb] in H. cbn [struct_pack_i].
  destruct (in_int32 c); [|reflexivity].
  cbn [andb] in H. rewrite (IH H). reflexivity.
Qed.

(** X1.  [edit_hash] returns, and then an unsigned 32-bit integer, exactly
    when every coordinate fits a signed 32-bit integer; otherwise it raises
    [struct.error], whatever the seed. *)
Theorem edit_hash_outcome (seed : Z) (coords : list Z) :
  match edit_hash seed coords with
  | Ok h => forallb in_int32 coords = true /\ is_uint32 h
  | Raise e => forallb in_int32 coords = false /\ e = StructError
  end.
Proof.
  unfold edit_hash. destruct (forallb in_int32 coords) eqn:H.
  - destruct (struct_pack_ok coords H) as [data ->]. cbn [mbind result_bind].
    split; [reflexivity|apply digest_range].
  - rewrite (struct_pack_raises coords H). cbn [mbind result_bind]. split; reflexivity.
Qed.

Lemma read32le_le_bytes32 (w : Z) :
  0 <= w < 2 ^ 32 ->
  match le_bytes32 w with
  | [b0; b1; b2; b3] => read32le b0 b1 b2 b3 = w
  | _ => False
  end.
Proof.
  intros Hw. unfold le_bytes32, read32le.
  change (2 ^ 8) with 256. change (2 ^ 16) with 65536. change (2 ^ 24) with 16777216.
  change (2 ^ 32) with 4294967296 in Hw.
  Z.to_euclidean_division_equations. lia.
Qed.

Lemma u32_int32_inj (c1 c2 : Z) :
  in_int32 c1 = true -> in_int32 c2 = true -> u32 c1 = u32 c2 -> c1 = c2.
Proof.
  unfold in_int32, int32_min, int32_max, u32.
  rewrite !andb_true_iff, !Z.leb_le.
  change (2 ^ 31) with 2147483648. change (2 ^ 32) with 4294967296.
  intros [Ha Hb] [Hc Hd] He. Z.to_euclidean_division_equations. lia.
Qed.

Lemma le_bytes32_inj (w1 w2 : Z) (r1 r2 : list Z) :
  0 <= w1 < 2 ^ 32 -> 0 <= w2 < 2 ^ 32 ->
  le_bytes32 w1 ++ r1 = le_bytes32 w2 ++ r2 -> w1 = w2 /\ r1 = r2.
Proof.
  intros H1 H2 H.
  pose proof (read32le_le_bytes32 w1 H1) as E1.
  pose proof (read32le_le_bytes32 w2 H2) as E2.
  unfold le_bytes32 in *. cbn [app] in H.
  injection H as Ha Hb Hc Hd Hr. rewrite Ha, Hb, Hc, Hd in E1.
  split; [congruence|exact Hr].
Qed.

Lemma Ok_inj {A} (a b : A) : Ok a = Ok b -> a = b.
Proof. intros H. injection H as ->. reflexivity. Qed.

(** X2.  The packing of the coordinates is injective: two tuples that give
    the hash the same bytes are the same tuple. *)
Theorem struct_pack_injective (coords1 coords2 : list Z) (data : list Z) :
  struct_pack_i coords1 = Ok data -> struct_pack_i coords2 = Ok data ->
  coords1 = coords2.
Proof.
  revert coords2 data. induction coords1 as [|c1 rest1 IH]; intros coords2 data H1 H2.
  - injection H1 as <-. destruct coords2 as [|c2 rest2]; [reflexivity|].
    cbn [struct_pack_i] in H2. destruct (in_int32 c2); [|discriminate].
    destruct (struct_pack_i rest2); [|discriminate]. discriminate.
  - cbn [struct_pack_i] in H1. destruct (in_int32 c1) eqn:Hc1; [|discriminate].
    destruct (struct_pack_i rest1) as [d1|] eqn:Hd1; [|discriminate].
    cbn [mbind result_bind] in H1.
    destruct coords2 as [|c2 rest2].
    { injection H2 as <-. apply Ok_inj in H1. unfold le_bytes32 in H1. discriminate. }
    cbn [struct_pack_i] in H2. destruct (in_int32 c2) eqn:Hc2; [|discriminate].
    destruct (struct_pack_i rest2) as [d2|] eqn:Hd2; [|discriminate].
    cbn [mbind result_bind] in H2.
    assert (Heq : le_bytes32 (u32 c1) ++ d1 = le_bytes32 (u32 c2) ++ d2)
      by (apply (Ok_inj _ _ (eq_trans H1 (eq_sym H2)))).
    apply le_bytes32_inj in Heq as [Hw Hr]; [|apply u32_range..].
    f_equal.
    + apply u32_int32_inj; assumption.
    + subst d2. eapply IH; [reflexivity|exact Hd2].
Qed.

End Packing.

Lemma struct_pack_injective_witness : [5; -1] = [2 + 3; 0 - 1].
Proof.
  apply (struct_pack_injective [5; -1] [2 + 3; 0 - 1] [5; 0; 0; 0; 255; 255; 255; 255]);
    vm_compute; reflexivity.
Defined.

(** ** Empty templates and empty pools *)

Section EmptySelection.

Import DJZ_ZeroEDIT.

Lemma in_int32_slot (position : Z) :
  0 <= position <= int32_max -> in_int32 position = true.
Proof.
  unfold in_int32, int32_min, int32_max. intros H.
  apply andb_true_iff. split; apply Z.leb_le; lia.
Qed.

Lemma select_components_empty_pool (seed index : Z)
    (items : list (string * list string)) :
  in_int32 index = true ->
  Exists (fun kp => kp.2 = []) items ->
  forall (i : Z) (components : gmap string string),
    0 <= i -> i + len items <= int32_max ->
    select_components seed index i items components = Raise ZeroDivisionError.
Proof.
  intros Hi. induction items as [|[key pool] rest IH]; intros Hex i components H0 Hmax.
  - inversion Hex.
  - unfold len in Hmax. cbn [length] in Hmax. cbn [select_components].
    destruct (edit_hash_total seed index (i + 1) Hi) as (h & -> & _).
    { apply in_int32_slot. lia. }
    cbn [mbind result_bind]. destruct pool as [|v pool].
    + reflexivity.
    + destruct (select_in_range (v :: pool) h) as [Hj Hv]; [discriminate|].
      rewrite Hj. cbn [mbind result_bind]. rewrite Hv. cbn [mbind result_bind].
      apply IH; [|lia|unfold len; lia].
      inversion Hex as [? ? Hhead|? ? Htail]; [discriminate|exact Htail].
Qed.

(** X3.  A profile that the loader accepts with no template, or with a pool
    that has no entry, makes the generator divide by zero: for every seed
    and every index that the hash accepts it raises [ZeroDivisionError]. *)
Theorem empty_selection_raises (seed index : Z) (profile : Profile) :
  in_int32 index = true ->
  len (pools profile) <= int32_max ->
  templates profile = [] \/ Exists (fun kp => kp.2 = []) (pools profile) ->
  generate_edit_prompt seed index profile = Raise ZeroDivisionError.
Proof.
  intros Hi Hlen Hempty. unfold generate_edit_prompt. cbv zeta.
  destruct (edit_hash_total seed index 0 Hi eq_refl) as (th & -> & _).
  cbn [mbind result_bind].
  destruct (templates profile) as [|t ts] eqn:Ht.
  - reflexivity.
  - destruct (select_in_range (t :: ts) th) as [Hj Hv]; [discriminate|].
    rewrite Hj. cbn [mbind result_bind]. rewrite Hv. cbn [mbind result_bind].
    destruct Hempty as [Hempty|Hempty]; [discriminate|].
    rewrite (select_components_empty_pool seed index _ Hi Hempty); [reflexivity|lia|lia].
Qed.

End EmptySelection.

Lemma empty_selection_raises_witness :
  DJZ_ZeroEDIT.generate_edit_prompt 42 0 empty_pool_profile = Raise ZeroDivisionError.
Proof.
  apply (empty_selection_raises 42 0 empty_pool_profile).
  - reflexivity.
  - vm_compute. discriminate.
  - right. left. reflexivity.
Defined.

(** ** The nodes and their caches *)

Section Traversal.

Lemma mapM_ext_result {A B} (f g : A -> result B) (l : list A) :
  (forall x, f x = g x) -> mapM f l = mapM g l.
Proof.
  intros H. induction l as [|x l IH]; [reflexivity|].
  cbn [mapM]. rewrite H, IH. reflexivity.
Qed.

Lemma mapM_raise {A B} (f : A -> result B) (e : exn) (x : A) (l : list A) :
  (forall y, f y = Raise e) -> mapM f (x :: l) = Raise e.
Proof. intros H. cbn [mapM]. rewrite H. reflexivity. Qed.

Lemma mapM_ok_inv {A B} (f : A -> result B) (l : list A) (k : list B) :
  mapM f l = Ok k -> Forall2 (fun x y => f x = Ok y) l k.
Proof.
  revert k. induction l as [|x l IH]; intros k H.
  - cbn in H. injection H as <-. constructor.
  - cbn [mapM] in H. destruct (f x) as [y|e] eqn:Hx; [|discriminate].
    cbn [mbind result_bind] in H.
    destruct (mapM f l) as [k'|e]; [|discriminate].
    cbn [mbind result_bind mret result_ret] in H. injection H as <-.
    constructor; [exact Hx|]. apply IH. reflexivity.
Qed.

End Traversal.

Section Nodes.

Import DJZ_ZeroEDIT.

Variable fs : gmap string file.

(** X4.  A profile that is in the cache is never read again: whatever the
    directory has become, the node answers from the cached document and
    leaves the cache as it is. *)
Theorem cached_profile_not_reloaded (fs' : gmap string file) (cache : gmap string json)
    (profile : string) (seed prompt_index : Z) (prefix suffix : string) :
  is_Some (cache !! profile) ->
  generate fs' cache profile seed prompt_index prefix suffix
  = generate fs cache profile seed prompt_index prefix suffix
  /\ (generate fs' cache profile seed prompt_index prefix suffix).1 = cache.
Proof.
  intros [data Hc]. unfold generate. rewrite Hc.
  destruct (as_profile data); split; reflexivity.
Qed.

(** X5.  The cache only grows: a call of [generate] keeps every entry as it
    is, adds at most the entry of the profile it was called with, and what
    it adds is the document [load_profile] returned. *)
Theorem generate_extends_cache (cache : gmap string json)
    (profile : string) (seed prompt_index : Z) (prefix suffix : string) :
  let after := (generate fs cache profile seed prompt_index prefix suffix).1 in
  cache ⊆ after
  /\ (forall name data, after !! name = Some data ->
        cache !! name = Some data
        \/ (name = profile /\ cache !! profile = None
            /\ load_profile fs profile = Ok data)).
Proof.
  cbv zeta. unfold generate.
  destruct (cache !! profile) as [cached|] eqn:Hc.
  - destruct (as_profile cached); cbn [fst]; (split; [reflexivity|auto]).
  - destruct (load_profile fs profile) as [loaded|e] eqn:Hl.
    + assert (H : cache ⊆ <[profile := loaded]> cache /\
                  forall name data, <[profile := loaded]> cache !! name = Some data ->
                    cache !! name = Some data
                    \/ (name = profile /\ @None json = None /\ Ok loaded = Ok data)).
      { split; [apply insert_subseteq; exact Hc|].
        intros name data. destruct (decide (name = profile)) as [->|Hne].
        - rewrite lookup_insert_eq. intros [= ->]. right. auto.
        - rewrite lookup_insert_ne by congruence. auto. }
      destruct (as_profile loaded); cbn [fst]; exact H.
    + destruct (caught_on_load e); cbn [fst]; (split; [reflexivity|auto]).
Qed.

Lemma with_affixes_prompt (prefix suffix : string) (r : result string) :
  (prompt ← r;
   if negb (String.eqb prefix "") || negb (String.eqb suffix "")
   then Ok (prefix +:+ prompt +:+ suffix) else Ok prompt)
  = (prompt ← r; Ok (with_affixes prefix suffix prompt)).
Proof.
  destruct r as [prompt|e]; [|reflexivity]. cbn [mbind result_bind].
  unfold with_affixes. destruct (negb _ || negb _); reflexivity.
Qed.

(** X6.  When the profile is cached or can be loaded, the batch node returns
    what [batch_size] calls of the single node return, at the indices
    [start_index], [start_index + 1], ..., in this order, and the first
    exception one of them raises; it leaves the cache that one call
    leaves. *)
Theorem generate_batch_sequence (cache : gmap string json)
    (profile : string) (seed start_index batch_size : Z) (prefix suffix : string) :
  (is_Some (cache !! profile) \/ exists data, load_profile fs profile = Ok data) ->
  generate_batch fs cache profile seed start_index batch_size prefix suffix
  = ((generate fs cache profile seed start_index prefix suffix).1,
     mapM (fun i => (generate fs cache profile seed (start_index + Z.of_nat i)
                       prefix suffix).2)
          (seq 0 (Z.to_nat batch_size))).
Proof.
  intros Havailable.
  assert (Hrun : forall (cache' : gmap string json) (data : json),
    match Z.to_nat batch_size with
    | O => Ok []
    | n =>
        match as_profile data with
        | None => Raise (Unmodelled "a profile that is not of the documented shape")
        | Some p =>
            mapM (fun i =>
                    prompt ← generate_edit_prompt seed (start_index + Z.of_nat i) p;
                    Ok (with_affixes prefix suffix prompt))
                 (seq 0 n)
        end
    end
    = mapM (fun i =>
              (match as_profile data with
               | None => (cache', Raise (Unmodelled "a profile that is not of the documented shape"))
               | Some p =>
                   (cache',
                    prompt ← generate_edit_prompt seed (start_index + Z.of_nat i) p;
                    if negb (String.eqb prefix "") || negb (String.eqb suffix "")
                    then Ok (prefix +:+ prompt +:+ suffix)
                    else Ok prompt)
               end).2)
           (seq 0 (Z.to_nat batch_size))).
  { intros cache' data. destruct (as_profile data) as [p|].
    - cbn [snd]. rewrite (mapM_ext_result _ _ _ (fun i => with_affixes_prompt prefix suffix _)).
      destruct (Z.to_nat batch_size); reflexivity.
    - cbn [snd]. destruct (Z.to_nat batch_size) as [|n]; [reflexivity|].
      cbn [seq]. symmetry. apply mapM_raise. reflexivity. }
  unfold generate_batch, generate.
  destruct (cache !! profile) as [cached|] eqn:Hc.
  - rewrite (Hrun cache cached). destruct (as_profile cached); reflexivity.
  - destruct Havailable as [[? [=]]|[data Hl]]. rewrite Hl.
    rewrite (Hrun (<[profile := data]> cache) data).
    destruct (as_profile data); reflexivity.
Qed.

(** X7.  When the profile cannot be loaded, the batch node returns a list of
    one string, the error text of the single node, whatever the batch size
    is, and leaves the cache as it was. *)
Theorem generate_batch_load_failure (cache : gmap string json)
    (profile : string) (seed start_index batch_size : Z) (prefix suffix : string)
    (e : exn) :
  cache !! profile = None ->
  load_profile fs profile = Raise e ->
  caught_on_load e = true ->
  exists text,
    generate fs cache profile seed start_index prefix suffix = (cache, Ok text)
    /\ generate_batch fs cache profile seed start_index batch_size prefix suffix
       = (cache, Ok [text]).
Proof.
  intros Hc Hl He. unfold generate, generate_batch. rewrite Hc, Hl, He.
  eexists. split; reflexivity.
Qed.

Lemma generate_edit_prompt_out_of_range (seed index : Z) (p : Profile) :
  in_int32 index = false -> generate_edit_prompt seed index p = Raise StructError.
Proof.
  intros H. unfold generate_edit_prompt, edit_hash. cbv zeta.
  cbn [struct_pack_i]. rewrite H. reflexivity.
Qed.

(** X8.  How many strings the batch node returns: [batch_size] of them (none
    when it is not positive), or the single error text when the profile
    could not be loaded. *)
Theorem generate_batch_length (cache : gmap string json)
    (profile : string) (seed start_index batch_size : Z) (prefix suffix : string)
    (prompts : list string) :
  (generate_batch fs cache profile seed start_index batch_size prefix suffix).2
  = Ok prompts ->
  len prompts = Z.max 0 batch_size
  \/ (cache !! profile = None
      /\ exists e, load_profile fs profile = Raise e /\ caught_on_load e = true
                   /\ len prompts = 1).
Proof.
  assert (Hrun : forall data,
    match Z.to_nat batch_size with
    | O => Ok []
    | n =>
        match as_profile data with
        | None => Raise (Unmodelled "a profile that is not of the documented shape")
        | Some p =>
            mapM (fun i =>
                    prompt ← generate_edit_prompt seed (start_index + Z.of_nat i) p;
                    Ok (with_affixes prefix suffix prompt))
                 (seq 0 n)
        end
    end = Ok prompts -> len prompts = Z.max 0 batch_size).
  { intros data H. unfold len.
    destruct (Z.to_nat batch_size) as [|n] eqn:Hn.
    - injection H as <-. cbn [length]. lia.
    - destruct (as_profile data) as [p|]; [|discriminate].
      apply mapM_ok_inv, Forall2_length in H. rewrite length_seq in H. lia. }
  unfold generate_batch.
  destruct (cache !! profile) as [cached|] eqn:Hc.
  - cbn [snd]. intros H. left. exact (Hrun _ H).
  - destruct (load_profile fs profile) as [data|e] eqn:Hl.
    + cbn [snd]. intros H. left. exact (Hrun _ H).
    + destruct (caught_on_load e) eqn:He; cbn [snd]; [|discriminate].
      intros [= <-]. right. split; [reflexivity|]. exists e. auto.
Qed.

(** X9.  A batch that reaches an index beyond the range of a signed 32-bit
    integer returns no list: the exception of the first prompt that fails
    ends the call, and the prompts made before it are lost. *)
Theorem generate_batch_out_of_range (cache : gmap string json)
    (profile : string) (seed start_index batch_size : Z) (prefix suffix : string) :
  is_Some (cache !! profile) ->
  0 <= start_index -> 1 <= batch_size ->
  int32_max < start_index + batch_size - 1 ->
  exists e,
    (generate_batch fs cache profile seed start_index batch_size prefix suffix).2
    = Raise e.
Proof.
  intros [data Hc] H0 H1 Hlast. unfold generate_batch. rewrite Hc. cbn [snd].
  destruct (Z.to_nat batch_size) as [|n] eqn:Hn; [lia|].
  destruct (as_profile data) as [p|]; [|eauto].
  rewrite <- Hn.
  destruct (mapM _ (seq 0 (Z.to_nat batch_size))) as [prompts|e] eqn:H; [|eauto].
  exfalso. apply mapM_ok_inv in H.
  assert (Hin : (Z.to_nat (batch_size - 1)) ∈ seq 0 (Z.to_nat batch_size)).
  { apply elem_of_seq. lia. }
  apply list_elem_of_lookup_1 in Hin as [i Hi].
  destruct (Forall2_lookup_l _ _ _ _ _ H Hi) as (y & _ & Hy).
  rewrite generate_edit_prompt_out_of_range in Hy; [discriminate|].
  unfold in_int32. apply andb_false_iff. right. apply Z.leb_gt. lia.
Qed.

End Nodes.

Lemma cached_profile_not_reloaded_witness :
  DJZ_ZeroEDIT.generate ∅ scenario_cache "scenario.json" 42 0 "" ""
  = DJZ_ZeroEDIT.generate scenario_directory scenario_cache "scenario.json" 42 0 "" "".
Proof.
  refine (proj1 (cached_profile_not_reloaded scenario_directory ∅ scenario_cache
                   "scenario.json" 42 0 "" "" _)).
  exists scenario_document. vm_compute. reflexivity.
Defined.

Lemma generate_batch_sequence_witness :
  DJZ_ZeroEDIT.generate_batch scenario_directory ∅ "scenario.json" 42 0 3 "<" ">"
  = ((DJZ_ZeroEDIT.generate scenario_directory ∅ "scenario.json" 42 0 "<" ">").1,
     mapM (fun i => (DJZ_ZeroEDIT.generate scenario_directory ∅ "scenario.json" 42
                       (0 + Z.of_nat i) "<" ">").2)
          (seq 0 (Z.to_nat 3))).
Proof.
  apply (generate_batch_sequence scenario_directory ∅ "scenario.json" 42 0 3 "<" ">").
  right. exists scenario_document. vm_compute. reflexivity.
Defined.

Lemma generate_batch_load_failure_witness :
  exists text,
    DJZ_ZeroEDIT.generate hollow_directory ∅ "absent.json" 42 0 "" "" = (∅, Ok text)
    /\ DJZ_ZeroEDIT.generate_batch hollow_directory ∅ "absent.json" 42 0 64 "" ""
       = (∅, Ok [text]).
Proof.
  apply (generate_batch_load_failure hollow_directory ∅ "absent.json" 42 0 64 "" ""
           (FileNotFoundError "Profile not found: absent.json")).
  - reflexivity.
  - vm_compute. reflexivity.
  - reflexivity.
Defined.

Lemma generate_batch_length_witness :
  len ["<C r>"; "<C s>"; "<A q B s>"] = Z.max 0 3
  \/ ((∅ : gmap string json) !! "scenario.json" = None
      /\ exists e, DJZ_ZeroEDIT.load_profile scenario_directory "scenario.json" = Raise e
                   /\ DJZ_ZeroEDIT.caught_on_load e = true
                   /\ len ["<C r>"; "<C s>"; "<A q B s>"] = 1).
Proof.
  apply (generate_batch_length scenario_directory ∅ "scenario.json" 42 0 3 "<" ">").
  vm_compute. reflexivity.
Defined.

Lemma generate_batch_out_of_range_witness :
  exists e,
    (DJZ_ZeroEDIT.generate_batch ∅ scenario_cache "scenario.json" 42 2147483646 4 "" "").2
    = Raise e.
Proof.
  apply (generate_batch_out_of_range ∅ scenario_cache "scenario.json" 42 2147483646 4 "" "").
  - exists scenario_document. vm_compute. reflexivity.
  - lia.
  - lia.
  - vm_compute. reflexivity.
Defined.

(** ** The discovery of the profiles *)

Section Discovery.

Import DJZ_ZeroEDIT.

Lemma remove_first_Permutation (x : string) (l : list string) :
  x ∈ l -> x :: remove_first x l ≡ₚ l.
Proof.
  induction l as [|y l IH]; intros Hx; [inversion Hx|].
  cbn [remove_first]. destruct (String.eqb y x) eqn:Hy.
  - apply String.eqb_eq in Hy as ->. reflexivity.
  - apply String.eqb_neq in Hy. apply elem_of_cons in Hx as [->|Hx]; [congruence|].
    rewrite Permutation_swap. constructor. apply IH, Hx.
Qed.

Lemma remove_first_elem (x y : string) (l : list string) :
  y ∈ remove_first x l -> y ∈ l.
Proof.
  induction l as [|z l IH]; cbn [remove_first]; [auto|].
  destruct (String.eqb z x).
  - intros H. apply elem_of_cons. auto.
  - intros [->|H]%elem_of_cons; apply elem_of_cons; auto.
Qed.

Lemma remove_first_sorted (x : string) (l : list string) :
  StronglySorted String.le l -> StronglySorted String.le (remove_first x l).
Proof.
  induction 1 as [|y l Hs IH Hall]; cbn [remove_first]; [constructor|].
  destruct (String.eqb y x); [exact Hs|].
  constructor; [exact IH|].
  apply Forall_forall. intros z Hz. apply remove_first_elem in Hz.
  exact (proj1 (Forall_forall _ _) Hall z Hz).
Qed.

Lemma sorted_strongly (names : list string) : StronglySorted String.le (sorted names).
Proof. apply StronglySorted_merge_sort; apply _. Qed.

Lemma discover_profiles_some (entries : list dir_entry) :
  (discover_profiles (Some entries)).1
  = let profiles :=
      if bool_decide (default_profile ∈ sorted (json_files entries))
      then default_profile :: remove_first default_profile (sorted (json_files entries))
      else sorted (json_files entries) in
    match profiles with [] => [default_profile] | _ => profiles end.
Proof. reflexivity. Qed.

(** X10.  The list of profiles is never empty: the menus of the nodes always
    have a first entry to take as their default. *)
Theorem discover_profiles_nonempty (dir : option (list dir_entry)) :
  exists first others, (discover_profiles dir).1 = first :: others.
Proof.
  destruct dir as [entries|]; [|eexists _, _; reflexivity].
  rewrite discover_profiles_some. cbv zeta.
  destruct (bool_decide _); [eexists _, _; reflexivity|].
  destruct (sorted (json_files entries)); eexists _, _; reflexivity.
Qed.

(** X11.  When the directory has a regular file whose name ends in [.json],
    the list is made of the names of all such files, each as many times as
    the directory has it, and of nothing else. *)
Theorem discover_profiles_permutation (entries : list dir_entry) :
  json_files entries <> [] ->
  (discover_profiles (Some entries)).1 ≡ₚ json_files entries.
Proof.
  intros Hne. rewrite discover_profiles_some. cbv zeta.
  assert (Hs : sorted (json_files entries) ≡ₚ json_files entries)
    by apply merge_sort_Permutation.
  destruct (bool_decide _) eqn:Hd.
  - apply bool_decide_eq_true in Hd.
    rewrite remove_first_Permutation by exact Hd. exact Hs.
  - destruct (sorted (json_files entries)) as [|n ns] eqn:Hsorted; [|exact Hs].
    apply Permutation_nil_l in Hs. congruence.
Qed.

(** X12.  The order of the list: [default-EDIT.json] comes first when it is
    among the files, and the other names follow in ascending order; when it
    is not, the whole list is in ascending order. *)
Theorem discover_profiles_order (entries : list dir_entry) :
  (default_profile ∈ json_files entries ->
     exists others,
       (discover_profiles (Some entries)).1 = default_profile :: others
       /\ StronglySorted String.le others)
  /\ (default_profile ∉ json_files entries ->
        StronglySorted String.le (discover_profiles (Some entries)).1).
Proof.
  assert (Hs : sorted (json_files entries) ≡ₚ json_files entries)
    by apply merge_sort_Permutation.
  rewrite discover_profiles_some. cbv zeta. split; intros Hd.
  - rewrite bool_decide_eq_true_2 by (rewrite Hs; exact Hd).
    eexists. split; [reflexivity|]. apply remove_first_sorted, sorted_strongly.
  - rewrite bool_decide_eq_false_2 by (rewrite Hs; exact Hd).
    destruct (sorted (json_files entries)) as [|n ns] eqn:Hsorted.
    + repeat constructor.
    + rewrite <- Hsorted. apply sorted_strongly.
Qed.


End Discovery.

Lemma discover_profiles_permutation_witness :
  (DJZ_ZeroEDIT.discover_profiles (Some profiles_directory)).1
  ≡ₚ json_files profiles_directory.
Proof.
  apply (discover_profiles_permutation profiles_directory).
  vm_compute. discriminate.
Defined.

Lemma discover_profiles_order_witness :
  exists others,
    (DJZ_ZeroEDIT.discover_profiles (Some profiles_directory)).1
    = DJZ_ZeroEDIT.default_profile :: others
    /\ StronglySorted String.le others.
Proof.
  refine (proj1 (discover_profiles_order profiles_directory) _).
  vm_compute. right; left.
Defined.


(** ** The information node, and the prefix and suffix *)

Section Information.

Import DJZ_ZeroEDIT.

Variable format_2e : Z -> result string.
Variable fs : gmap string file.

(** X14.  A profile file that holds null, a boolean or a number makes
    [load_profile] raise [TypeError], which the two generating nodes do not
    catch: they raise it and leave their caches as they were, while the
    information node returns its text as an error message. *)
Theorem scalar_document_escapes (cache : gmap string json) (profile : string)
    (v : json) (seed index batch_size : Z) (prefix suffix : string) :
  fs !! profile = Some (Document v) ->
  is_scalar v = true ->
  cache !! profile = None ->
  generate fs cache profile seed index prefix suffix = (cache, Raise TypeError)
  /\ generate_batch fs cache profile seed index batch_size prefix suffix
     = (cache, Raise TypeError)
  /\ exists text,
       get_info format_2e fs profile = Ok ("Error loading profile: " +:+ text).
Proof.
  intros Hf Hv Hc.
  assert (Hl : load_profile fs profile = Raise TypeError).
  { unfold load_profile. rewrite Hf. destruct v; try discriminate; reflexivity. }
  unfold generate, generate_batch, get_info.
  rewrite Hc, Hl. cbn [caught_on_load].
  split; [reflexivity|]. split; [reflexivity|]. eexists. reflexivity.
Qed.

Lemma as_str_list_len (j : json) (l : list string) :
  as_str_list j = Some l -> json_len j = Ok (len l).
Proof.
  destruct j; try discriminate. cbn [as_str_list json_len]. intros H.
  apply length_mapM in H. unfold len. rewrite H. reflexivity.
Qed.

Lemma as_pools_lines (members : list (string * json)) :
  forall ps : list (string * list string),
    mapM (fun '(k, v) => pool ← as_str_list v; Some (k, pool)) members = Some ps ->
    mapM (fun kv : string * json =>
            n ← json_len kv.2;
            Ok ("  " +:+ kv.1 +:+ ": " +:+ str_of_int n +:+ " entries")) members
    = Ok (map pool_line ps)
    /\ mapM json_len (values members) = Ok (map len (values ps)).
Proof.
  induction members as [|[k v] members IH]; intros ps H.
  - cbn in H. injection H as <-. split; reflexivity.
  - cbn [mapM] in H. destruct (as_str_list v) as [pool|] eqn:Hv; [|discriminate].
    cbn [mbind option_bind] in H.
    destruct (mapM _ members) as [ps'|] eqn:Hm; [|discriminate].
    cbn [mbind option_bind mret option_ret] in H. injection H as <-.
    destruct (IH ps' eq_refl) as [IH1 IH2].
    unfold values in *. cbn [mapM map snd fst].
    rewrite (as_str_list_len _ _ Hv). cbn [mbind result_bind].
    rewrite IH1, IH2. split; reflexivity.
Qed.

Lemma fold_sizes_len (pools : list (list string)) :
  forall n : Z,
    fold_left Z.mul (map len pools) n
    = fold_left (fun total pool => total * len pool) pools n.
Proof. induction pools as [|pool pools IH]; intros n; [reflexivity|apply IH]. Qed.

(** X15.  For a profile of the documented shape the information node reports
    the name, the description and the version, one line per pool in the
    order of the profile, the number of templates, and as the total the
    number [calculate_combinations] returns; it raises only when that total
    is too large for the scientific notation. *)
Theorem get_info_report (profile : string) (members : list (string * json))
    (p : Profile) :
  load_profile fs profile = Ok (JObj members) ->
  as_profile (JObj members) = Some p ->
  get_info format_2e fs profile
  = (scientific ← format_2e (calculate_combinations p);
     Ok (str_join newline
           ([ "Profile: " +:+ get_str members "name" profile;
              "Description: " +:+ get_str members "description" "N/A";
              "Version: " +:+ get_str members "version" "N/A";
              "";
              "Pool Sizes:" ]
            ++ map pool_line (pools p)
            ++ [ "  templates: " +:+ str_of_int (len (templates p)) +:+ " variations";
                 "";
                 "Total unique edit prompts: " +:+ with_commas (calculate_combinations p);
                 "Scientific notation: " +:+ scientific ]))).
Proof.
  intros Hl Hp. unfold get_info. rewrite Hl.
  cbn [as_profile] in Hp.
  destruct (assoc "templates" members) as [tj|] eqn:Ht; [|discriminate].
  cbn [mbind option_bind] in Hp.
  destruct (as_str_list tj) as [ts|] eqn:Hts; [|discriminate].
  cbn [mbind option_bind] in Hp.
  destruct (assoc "pools" members) as [pj|] eqn:Hps; [|discriminate].
  cbn [mbind option_bind] in Hp.
  destruct (as_pools pj) as [ps|] eqn:Hpj; [|discriminate].
  cbn [mbind option_bind] in Hp. injection Hp as <-.
  destruct pj as [| | | | |pmembers]; try discriminate.
  cbn [as_pools] in Hpj. destruct (as_pools_lines _ _ Hpj) as [H1 H2].
  cbn [default from_option id]. rewrite H1. cbn [mbind result_bind].
  rewrite (as_str_list_len _ _ Hts). cbn [mbind result_bind].
  rewrite H2. cbn [mbind result_bind].
  unfold calculate_combinations. cbn [templates pools].
  rewrite fold_sizes_len. reflexivity.
Qed.

(** X16.  The prefix and the suffix are put around the prompt and change
    nothing else: the call returns the prompt of the call without them
    between the two, the same exception, the same cache; the text of a load
    error is returned without them. *)
Theorem generate_affixes (cache : gmap string json) (profile : string)
    (seed index : Z) (prefix suffix : string) :
  let bare := generate fs cache profile seed index "" "" in
  ((is_Some (cache !! profile) \/ exists data, load_profile fs profile = Ok data) ->
     generate fs cache profile seed index prefix suffix
     = (bare.1, prompt ← bare.2; Ok (prefix +:+ prompt +:+ suffix)))
  /\ (cache !! profile = None ->
      forall e, load_profile fs profile = Raise e ->
        generate fs cache profile seed index prefix suffix = bare).
Proof.
  cbv zeta.
  assert (Hrun : forall (cache' : gmap string json) (data : json),
    match as_profile data with
    | None => (cache', Raise (Unmodelled "a profile that is not of the documented shape"))
    | Some p =>
        (cache',
         prompt ← generate_edit_prompt seed index p;
         if negb (String.eqb prefix "") || negb (String.eqb suffix "")
         then Ok (prefix +:+ prompt +:+ suffix)
         else Ok prompt)
    end
    = (cache',
       prompt ← (match as_profile data with
                 | None => (cache', Raise (Unmodelled "a profile that is not of the documented shape"))
                 | Some p =>
                     (cache',
                      prompt ← generate_edit_prompt seed index p;
                      if negb (String.eqb "" "") || negb (String.eqb "" "")
                      then Ok ("" +:+ prompt +:+ "")
                      else Ok prompt)
                 end).2;
       Ok (prefix +:+ prompt +:+ suffix))).
  { intros cache' data. destruct (as_profile data) as [p|]; [|reflexivity].
    cbn [snd]. destruct (generate_edit_prompt seed index p) as [prompt|e]; [|reflexivity].
    cbn [mbind result_bind String.eqb negb orb].
    destruct (String.eqb prefix "") eqn:Hp; [|reflexivity].
    destruct (String.eqb suffix "") eqn:Hs; [|reflexivity].
    apply String.eqb_eq in Hp as ->. apply String.eqb_eq in Hs as ->.
    cbn [negb orb]. rewrite append_empty_r. reflexivity. }
  unfold generate. split.
  - intros Havailable. destruct (cache !! profile) as [cached|] eqn:Hc.
    + rewrite (Hrun cache cached). destruct (as_profile cached); reflexivity.
    + destruct Havailable as [[? [=]]|[data Hl]]. rewrite Hl.
      rewrite (Hrun _ data). destruct (as_profile data); reflexivity.
  - intros -> e ->. reflexivity.
Qed.

End Information.

Lemma scalar_document_escapes_witness :
  DJZ_ZeroEDIT.generate scalar_directory ∅ "null.json" 42 0 "" "" = (∅, Raise TypeError)
  /\ DJZ_ZeroEDIT.generate_batch scalar_directory ∅ "null.json" 42 0 4 "" ""
     = (∅, Raise TypeError)
  /\ exists text,
       DJZ_ZeroEDIT.get_info (fun _ => Ok "0.00e+00") scalar_directory "null.json"
       = Ok ("Error loading profile: " +:+ text).
Proof.
  apply (scalar_document_escapes (fun _ => Ok "0.00e+00") scalar_directory ∅ "null.json"
           JNull 42 0 4 "" "").
  - vm_compute. reflexivity.
  - reflexivity.
  - reflexivity.
Defined.

Lemma get_info_report_witness :
  exists report,
    DJZ_ZeroEDIT.get_info (fun _ => Ok "1.20e+01") scenario_directory "scenario.json"
    = Ok report.
Proof.
  eexists.
  etransitivity;
    [ apply (get_info_report (fun _ => Ok "1.20e+01") scenario_directory "scenario.json"
               [ ("name", JStr "Scenario");
                 ("templates", JArr [JStr "A {x} B {y}"; JStr "C {y}"]);
                 ("pools", JObj [ ("x", JArr [JStr "p"; JStr "q"]);
                                  ("y", JArr [JStr "r"; JStr "s"; JStr "t"]) ]) ]
               {| templates := templates scenario_profile;
                  pools := pools scenario_profile;
                  extra := [("name", JStr "Scenario")] |});
      vm_compute; reflexivity
    | cbn [mbind result_bind]; reflexivity ].
Defined.

Lemma generate_affixes_witness :
  DJZ_ZeroEDIT.generate ∅ scenario_cache "scenario.json" 42 0 "<" ">"
  = ((DJZ_ZeroEDIT.generate ∅ scenario_cache "scenario.json" 42 0 "" "").1,
     prompt ← (DJZ_ZeroEDIT.generate ∅ scenario_cache "scenario.json" 42 0 "" "").2;
     Ok ("<" +:+ prompt +:+ ">")).
Proof.
  refine (proj1 (generate_affixes ∅ scenario_cache "scenario.json" 42 0 "<" ">") _).
  left. exists scenario_document. vm_compute. reflexivity.
Defined.

(** ** The structure check, the placeholders and the test output of the
    validator; the fallback hash of the stats tool *)

Section StructureCheck.

Import validate_profile.

Lemma assoc_None {A} (key : string) (members : list (string * A)) :
  key ∉ keys members -> assoc key members = None.
Proof.
  induction members as [|[k v] members IH]; [reflexivity|].
  cbn [keys map fst assoc]. intros H. apply not_elem_of_cons in H as [Hne Hrest].
  destruct (String.eqb k key) eqn:Hk; [apply String.eqb_eq in Hk; congruence|].
  apply IH, Hrest.
Qed.

Lemma assoc_Some {A} (key : string) (members : list (string * A)) :
  key ∈ keys members -> exists v, assoc key members = Some v.
Proof.
  induction members as [|[k v] members IH]; [intros H; inversion H|].
  cbn [keys map fst assoc]. intros H.
  destruct (String.eqb k key) eqn:Hk; [eauto|].
  apply String.eqb_neq in Hk. apply elem_of_cons in H as [->|H]; [congruence|].
  apply IH, H.
Qed.

Lemma check_required_object (members : list (string * json)) (fields : list string) :
  check_required fields (JObj members)
  = Ok (map (fun field => "Missing required field: '" +:+ field +:+ "'")
            (filter (fun field => field ∉ keys members) fields)).
Proof.
  induction fields as [|field rest IH]; [reflexivity|].
  cbn [check_required has_field DJZ_ZeroEDIT.contains mbind result_bind].
  rewrite IH. cbn [mbind result_bind]. rewrite filter_cons.
  destruct (decide (field ∈ keys members)) as [Hin|Hout].
  - rewrite bool_decide_eq_true_2 by exact Hin.
    destruct (decide (field ∉ keys members)); [contradiction|reflexivity].
  - rewrite bool_decide_eq_false_2 by exact Hout.
    destruct (decide (field ∉ keys members)); [reflexivity|contradiction].
Qed.

Lemma filter_present (members : list (string * json)) (fields : list string) :
  (forall field, field ∈ fields -> field ∈ keys members) ->
  filter (fun field => field ∉ keys members) fields = [].
Proof.
  induction fields as [|field rest IH]; intros H; [reflexivity|].
  rewrite filter_cons. destruct (decide (field ∉ keys members)) as [Hout|_].
  - exfalso. apply Hout, H. left.
  - apply IH. intros f Hf. apply H. right. exact Hf.
Qed.

(** On a JSON object [validate_structure] reports the required fields that
    are missing, in their fixed order, then a [templates] that is not a
    list or is an empty one, then a [pools] that is not an object, and
    nothing else. *)
Lemma validate_structure_object (members : list (string * json)) :
  validate_structure (JObj members)
  = Ok (missing_fields members ++ templates_errors members ++ pools_errors members).
Proof.
  unfold validate_structure. rewrite check_required_object.
  cbn [mbind result_bind has_field DJZ_ZeroEDIT.contains].
  fold (missing_fields members).
  assert (Ht : (if bool_decide ("templates" ∈ keys members)
                then ts ← get_field_value "templates" (JObj members);
                     match ts with
                     | JArr [] => Ok ["'templates' cannot be empty"]
                     | JArr _ => Ok []
                     | _ => Ok ["'templates' must be a list"]
                     end
                else Ok []) = Ok (templates_errors members)).
  { unfold templates_errors. cbn [get_field_value].
    destruct (decide ("templates" ∈ keys members)) as [Hin|Hout].
    - rewrite bool_decide_eq_true_2 by exact Hin.
      destruct (assoc_Some _ _ Hin) as [v ->]. cbn [mbind result_bind].
      destruct v as [| | | |[|]|]; reflexivity.
    - rewrite bool_decide_eq_false_2 by exact Hout.
      rewrite (assoc_None _ _ Hout). reflexivity. }
  assert (Hp : (if bool_decide ("pools" ∈ keys members)
                then ps ← get_field_value "pools" (JObj members);
                     match ps with
                     | JObj _ => Ok []
                     | _ => Ok ["'pools' must be a dictionary"]
                     end
                else Ok []) = Ok (pools_errors members)).
  { unfold pools_errors. cbn [get_field_value].
    destruct (decide ("pools" ∈ keys members)) as [Hin|Hout].
    - rewrite bool_decide_eq_true_2 by exact Hin.
      destruct (assoc_Some _ _ Hin) as [v ->]. cbn [mbind result_bind].
      destruct v; reflexivity.
    - rewrite bool_decide_eq_false_2 by exact Hout.
      rewrite (assoc_None _ _ Hout). reflexivity. }
  rewrite Ht. cbn [mbind result_bind]. rewrite Hp. reflexivity.
Qed.

(** X17.  On a JSON object [validate_structure] never raises, and it reports
    nothing exactly when the object has the five required fields, its
    [templates] is a list that is not empty and its [pools] is an object:
    an object without pools, and templates or pool entries that are not
    strings, pass. *)
Theorem validate_structure_passes (members : list (string * json)) :
  (exists errors, validate_structure (JObj members) = Ok errors)
  /\ (validate_structure (JObj members) = Ok []
      <-> (forall field, field ∈ required_fields -> field ∈ keys members)
          /\ (exists t ts, assoc "templates" members = Some (JArr (t :: ts)))
          /\ (exists ps, assoc "pools" members = Some (JObj ps))).
Proof.
  rewrite validate_structure_object. split; [eauto|]. split.
  - intros [= H]. apply app_eq_nil in H as [Hm H]. apply app_eq_nil in H as [Ht Hp].
    assert (Hall : forall field, field ∈ required_fields -> field ∈ keys members).
    { intros field Hin. destruct (decide (field ∈ keys members)) as [|Hout]; [assumption|].
      unfold missing_fields in Hm. apply map_eq_nil in Hm.
      exfalso. exact (filter_nil_not_elem_of _ _ _ Hm Hout Hin). }
    split; [exact Hall|]. split.
    + destruct (assoc_Some "templates" members) as [v Hv].
      { apply Hall. unfold required_fields. do 3 right. left. }
      unfold templates_errors in Ht. rewrite Hv in Ht.
      destruct v as [| | | |[|t ts]|]; try discriminate. eauto.
    + destruct (assoc_Some "pools" members) as [v Hv].
      { apply Hall. unfold required_fields. do 4 right. left. }
      unfold pools_errors in Hp. rewrite Hv in Hp.
      destruct v; try discriminate. eauto.
  - intros (Hall & (t & ts & Ht) & (ps & Hp)).
    unfold templates_errors, pools_errors, missing_fields. rewrite Ht, Hp.
    rewrite (filter_present members required_fields Hall). reflexivity.
Qed.

End StructureCheck.

Section Placeholders.

Import validate_profile.

Lemma is_word_not_brace (c : ascii) :
  is_word c = true -> (c =? "{")%char = false /\ (c =? "}")%char = false.
Proof.
  destruct c as [[] [] [] [] [] [] [] []]; intros H; split;
    first [reflexivity | discriminate H].
Qed.

Lemma is_word_name_char (c : ascii) : is_word c = true -> name_char c = true.
Proof.
  destruct c as [[] [] [] [] [] [] [] []]; intros H;
    first [reflexivity | discriminate H].
Qed.

Lemma all_chars_snoc (f : ascii -> bool) (acc : string) (c : ascii) :
  all_chars f acc = true -> f c = true -> all_chars f (acc +:+ String c "") = true.
Proof.
  intros Hacc Hc. induction acc as [|a acc IH].
  - change ("" +:+ String c "") with (String c ""). cbn [all_chars].
    rewrite Hc. reflexivity.
  - cbn [all_chars] in Hacc. apply andb_true_iff in Hacc as [Ha Hacc].
    rewrite append_cons. cbn [all_chars]. rewrite Ha. apply IH, Hacc.
Qed.

Lemma findall_word (st : option string) (s : string) (ph : string) :
  match st with Some acc => all_chars is_word acc = true | None => True end ->
  ph ∈ findall_go st s -> word_name ph = true.
Proof.
  revert st. induction s as [|c s IH]; intros st Hst Hin; [inversion Hin|].
  cbn [findall_go] in Hin. destruct (c =? "{")%char.
  - apply (IH (Some "")); [reflexivity|exact Hin].
  - destruct st as [acc|]; [|apply (IH None); [exact I|exact Hin]].
    destruct (is_word c) eqn:Hc.
    + apply (IH (Some (acc +:+ String c ""))); [|exact Hin].
      apply all_chars_snoc; assumption.
    + destruct ((c =? "}")%char && negb (String.eqb acc "")) eqn:Hclose.
      * apply elem_of_cons in Hin as [->|Hin]; [|apply (IH None); [exact I|exact Hin]].
        apply andb_true_iff in Hclose as [_ Hne]. unfold word_name.
        rewrite Hne, Hst. reflexivity.
      * apply (IH None); [exact I|exact Hin].
Qed.

Lemma findall_text (s rest : string) :
  all_chars text_char s = true ->
  findall_go None (s +:+ rest) = findall_go None rest.
Proof.
  induction s as [|c s IH]; intros H; [reflexivity|].
  cbn [all_chars] in H. apply andb_true_iff in H as [Hc Hs].
  apply text_char_spec in Hc as [Ho _].
  rewrite append_cons. cbn [findall_go]. rewrite Ho. apply IH, Hs.
Qed.

Lemma findall_name (name rest : string) :
  all_chars is_word name = true ->
  forall acc : string,
    findall_go (Some acc) (name +:+ String "}" rest)
    = if String.eqb (acc +:+ name) "" then findall_go None rest
      else (acc +:+ name) :: findall_go None rest.
Proof.
  induction name as [|c name IH]; intros H acc.
  - rewrite append_empty_r. change ("" +:+ String "}" rest) with (String "}"%char rest).
    cbn [findall_go]. change (("}" =? "{")%char) with false.
    change (is_word "}") with false. change (("}" =? "}")%char) with true.
    cbv iota. cbn [andb]. destruct (String.eqb acc ""); reflexivity.
  - cbn [all_chars] in H. apply andb_true_iff in H as [Hc Hname].
    destruct (is_word_not_brace c Hc) as [Ho _].
    rewrite append_cons. cbn [findall_go]. rewrite Ho, Hc.
    rewrite (IH Hname). rewrite append_assoc. reflexivity.
Qed.

Lemma findall_skip (x rest : string) :
  (forall st, x ∈ findall_go st rest) ->
  forall (pre : string) (st : option string), x ∈ findall_go st (pre +:+ rest).
Proof.
  intros H. induction pre as [|c pre IH]; intros st; [apply H|].
  rewrite append_cons. cbn [findall_go].
  destruct (c =? "{")%char; [apply IH|].
  destruct st as [acc|]; [|apply IH].
  destruct (is_word c); [apply IH|].
  destruct ((c =? "}")%char && negb (String.eqb acc "")); [right|]; apply IH.
Qed.

(** Every name that stands between braces is found. *)
Lemma findall_complete (template name : string) :
  names_placeholder template name -> name ∈ placeholders template.
Proof.
  intros [Hw (pre & post & ->)]. unfold placeholders.
  apply findall_skip. intros st.
  change (("{" +:+ name +:+ "}") +:+ post) with (show_piece (Placeholder name) +:+ post).
  rewrite show_placeholder. cbn [findall_go].
  change (("{" =? "{")%char) with true. cbv iota.
  unfold word_name in Hw. apply andb_true_iff in Hw as [Hne Hword].
  rewrite findall_name by exact Hword. change ("" +:+ name) with name.
  apply negb_true_iff in Hne. rewrite Hne. left.
Qed.

(** What is found stands between braces, or ends the run of word
    characters the scan is in. *)
Lemma findall_sound (s : string) :
  forall (st : option string) (ph : string),
    ph ∈ findall_go st s ->
    (exists pre post, s = pre +:+ (("{" +:+ ph +:+ "}") +:+ post))
    \/ (exists acc name post,
          st = Some acc /\ ph = acc +:+ name /\ s = name +:+ String "}" post).
Proof.
  induction s as [|c s IH]; intros st ph Hin; [inversion Hin|].
  cbn [findall_go] in Hin.
  assert (Hrest : forall st', ph ∈ findall_go st' s ->
            (exists acc name post, st' = Some acc /\ ph = acc +:+ name
                                   /\ s = name +:+ String "}" post)
            \/ exists pre post, String c s = pre +:+ (("{" +:+ ph +:+ "}") +:+ post)).
  { intros st' H. destruct (IH st' ph H) as [(pre & post & ->)|Hrun]; [|left; exact Hrun].
    right. exists (String c pre), post. reflexivity. }
  destruct (c =? "{")%char eqn:Ho.
  - apply Ascii.eqb_eq in Ho as ->. left.
    destruct (Hrest _ Hin) as [(acc & name & post & [= <-] & -> & ->)|Hfound];
      [|exact Hfound].
    exists "", post. change ("" +:+ name) with name.
    change (("{" +:+ name +:+ "}") +:+ post) with (show_piece (Placeholder name) +:+ post).
    rewrite show_placeholder. reflexivity.
  - destruct st as [acc|].
    + destruct (is_word c) eqn:Hc.
      * destruct (Hrest _ Hin) as [(acc' & name & post & [= <-] & -> & ->)|Hfound];
          [|left; exact Hfound].
        right. exists acc, (String c name), post.
        split; [reflexivity|]. split; [|reflexivity].
        rewrite append_assoc. reflexivity.
      * destruct ((c =? "}")%char && negb (String.eqb acc "")) eqn:Hclose.
        -- apply elem_of_cons in Hin as [->|Hin].
           ++ apply andb_true_iff in Hclose as [Hc' _]. apply Ascii.eqb_eq in Hc' as ->.
              right. exists acc, "", s. split; [reflexivity|].
              split; [rewrite append_empty_r|]; reflexivity.
           ++ destruct (Hrest _ Hin) as [(? & ? & ? & [=] & _)|Hfound]. left. exact Hfound.
        -- destruct (Hrest _ Hin) as [(? & ? & ? & [=] & _)|Hfound]. left. exact Hfound.
    + destruct (Hrest _ Hin) as [(? & ? & ? & [=] & _)|Hfound]. left. exact Hfound.
Qed.

Lemma placeholders_named (template ph : string) :
  ph ∈ placeholders template <-> names_placeholder template ph.
Proof.
  split; [|apply findall_complete].
  intros Hin. split; [exact (findall_word None template ph I Hin)|].
  destruct (findall_sound template None ph Hin) as [Hfound|(? & ? & ? & [=] & _)].
  exact Hfound.
Qed.

(** X18.  In a template written in ASCII, the names the validator checks
    against the pools are exactly the words that stand between an opening
    and a closing brace: a name with a space, a hyphen or another
    character that is not a letter, a digit or an underscore is not
    looked at. *)
Theorem placeholders_are_words (template ph : string) :
  ascii_text template = true ->
  (ph ∈ placeholders template <-> names_placeholder template ph).
Proof. intros _. apply placeholders_named. Qed.

Lemma plain_name_nonempty (name : string) : plain_name name = true -> name <> "".
Proof.
  unfold plain_name. intros H ->. discriminate.
Qed.

(** What the pattern finds in a template written from its pieces. *)
Lemma placeholders_show (pieces : list piece) :
  well_formed pieces = true ->
  (forall name, name ∈ placeholder_names pieces -> all_chars is_word name = true) ->
  placeholders (show pieces) = placeholder_names pieces.
Proof.
  unfold placeholders. induction pieces as [|[s|name] rest IH]; intros Hw Hnames.
  - reflexivity.
  - cbn [well_formed forallb well_formed_piece] in Hw.
    apply andb_true_iff in Hw as [Hs Hrest].
    cbn [show show_piece placeholder_names]. rewrite findall_text by exact Hs.
    apply IH; [exact Hrest|exact Hnames].
  - cbn [well_formed forallb well_formed_piece] in Hw.
    apply andb_true_iff in Hw as [Hn Hrest].
    cbn [show placeholder_names]. rewrite show_placeholder.
    cbn [findall_go]. change (("{" =? "{")%char) with true. cbv iota.
    rewrite findall_name by (apply Hnames; left).
    change ("" +:+ name) with name.
    destruct (String.eqb name "") eqn:He.
    + apply String.eqb_eq in He. exfalso. exact (plain_name_nonempty _ Hn He).
    + f_equal. apply IH; [exact Hrest|].
      intros n Hin. apply Hnames. right. exact Hin.
Qed.

End Placeholders.

Section Validated.

Import DJZ_ZeroEDIT.

Lemma plain_of_well_formed (kwargs : gmap string string) (pieces : list piece) :
  well_formed pieces = true ->
  (forall name, name ∈ placeholder_names pieces -> is_Some (kwargs !! name)) ->
  plain kwargs pieces = true.
Proof.
  induction pieces as [|[s|name] rest IH]; intros Hw Hnames; [reflexivity|..];
    cbn [well_formed forallb well_formed_piece] in Hw;
    apply andb_true_iff in Hw as [Hhead Hrest];
    cbn [plain forallb plain_piece]; apply andb_true_iff; split.
  - exact Hhead.
  - apply IH; [exact Hrest|exact Hnames].
  - rewrite Hhead. apply bool_decide_eq_true_2, Hnames. left.
  - apply IH; [exact Hrest|]. intros n Hn. apply Hnames. right. exact Hn.
Qed.

Lemma chosen_lookup (seed index : Z) (pools : list (string * list string))
    (chosen : list (string * string)) (name : string) :
  selected_values seed index pools = Ok chosen ->
  (is_Some ((list_to_map chosen : gmap string string) !! name) <-> name ∈ keys pools).
Proof.
  intros Hc.
  assert (Hkeys : keys chosen = keys pools) by exact (selected_from_keys _ _ _ _ _ Hc).
  rewrite <- Hkeys. split.
  - intros [v Hv]. destruct (decide (name ∈ keys chosen)) as [|Hout]; [assumption|].
    apply (not_elem_of_list_to_map_1 (M := gmap string)) in Hout. congruence.
  - intros Hin. destruct (list_to_map chosen !! name) as [v|] eqn:Hv; [eauto|].
    apply not_elem_of_list_to_map in Hv. contradiction.
Qed.

(** X19.  What the validator promises the generator.  For a profile in which
    the validator finds nothing, and a selected template made of brace-free
    text and of placeholders whose names are words and not numbers, the
    generator replaces every placeholder by the value selected for the pool
    of that name: the handler of [KeyError] is not reached. *)
Theorem validated_template_resolves (seed index th : Z) (profile : Profile)
    (chosen : list (string * string)) (pieces : list piece) :
  findings profile = [] ->
  templates profile <> [] ->
  NoDup (keys (pools profile)) ->
  edit_hash seed [index; 0] = Ok th ->
  selected_values seed index (pools profile) = Ok chosen ->
  at_index (templates profile) (indexOf th (len (templates profile))) = show pieces ->
  well_formed pieces = true ->
  (forall name, name ∈ placeholder_names pieces -> all_chars is_word name = true) ->
  generate_edit_prompt seed index profile
  = Ok (substitute (list_to_map chosen) pieces).
Proof.
  intros Hfind Ht Hnd Hth Hc Htemplate Hw Hwords.
  unfold findings in Hfind. apply app_eq_nil in Hfind as [Hpools Htemplates].
  assert (Hne : Forall (fun kp => kp.2 <> []) (pools profile)).
  { apply List.Forall_forall. intros [name items] Hin.
    pose proof (proj1 (validate_pools_nil profile) Hpools name items
                  (proj2 (list_elem_of_In _ _) Hin)) as Hpool.
    apply validate_pool_nil in Hpool. tauto. }
  unfold validate_profile.validate_templates in Htemplates.
  pose proof (proj1 (check_templates_nil _ _ _) Htemplates) as Hdefined.
  rewrite (generate_edit_prompt_selection seed index profile Ht Hne Hnd), Hth.
  cbn [mbind result_bind]. rewrite Hc. cbn [mbind result_bind]. rewrite Htemplate.
  unfold render. rewrite str_format_plain; [reflexivity|].
  apply plain_of_well_formed; [exact Hw|].
  intros name Hname. apply (chosen_lookup seed index _ _ _ Hc).
  apply (elem_of_list_to_set (C := gset string)).
  apply (Hdefined (show pieces)).
  - rewrite <- Htemplate. apply at_index_elem. exact Ht.
  - rewrite placeholders_show by assumption. exact Hname.
Qed.

(** X20.  A placeholder that names no pool stays in the prompt as it is
    written, braces included: for a well-formed template the generator
    returns the text with each placeholder of a pool replaced by the value
    selected for it and every other placeholder unchanged. *)
Theorem unresolved_placeholder_kept (seed index th : Z) (profile : Profile)
    (chosen : list (string * string)) (pieces : list piece) :
  templates profile <> [] ->
  Forall (fun kp => kp.2 <> []) (pools profile) ->
  NoDup (keys (pools profile)) ->
  Forall (fun kp => brace_free kp.1 = true
                    /\ Forall (fun v => brace_free v = true) kp.2) (pools profile) ->
  edit_hash seed [index; 0] = Ok th ->
  selected_values seed index (pools profile) = Ok chosen ->
  at_index (templates profile) (indexOf th (len (templates profile))) = show pieces ->
  well_formed pieces = true ->
  generate_edit_prompt seed index profile
  = Ok (fill (list_to_map chosen) braces pieces)
  /\ (forall name,
        (list_to_map chosen : gmap string string) !! name = None
        <-> name ∉ keys (pools profile)).
Proof.
  intros Ht Hne Hnd Hfree Hth Hc Htemplate Hw. split.
  - apply (generate_well_formed seed index th); assumption.
  - intros name. rewrite <- (chosen_lookup seed index _ _ name Hc).
    rewrite eq_None_not_Some. reflexivity.
Qed.

Lemma is_digit_name_char (c : ascii) : is_digit c = true -> name_char c = true.
Proof.
  destruct c as [[] [] [] [] [] [] [] []]; intros H;
    first [reflexivity | discriminate H].
Qed.

Lemma is_digit_ascii (c : ascii) : is_digit c = true -> is_ascii c = true.
Proof.
  unfold is_digit, is_ascii. rewrite andb_true_iff, !Z.leb_le, Z.ltb_lt. lia.
Qed.

Lemma all_chars_impl (f g : ascii -> bool) (s : string) :
  (forall c, f c = true -> g c = true) -> all_chars f s = true -> all_chars g s = true.
Proof.
  intros Hfg. induction s as [|c s IH]; [reflexivity|].
  cbn [all_chars]. intros [Hc Hs]%andb_true_iff.
  rewrite (Hfg c Hc). apply IH, Hs.
Qed.

Lemma format_numeric (kwargs : gmap string string) (s name rest : string) :
  brace_free s = true ->
  all_chars is_digit name = true -> (String.length name <= 18)%nat ->
  str_format (s +:+ braces name +:+ rest) kwargs = Raise IndexError.
Proof.
  intros Hs Hd Hlen. unfold str_format.
  rewrite (format_text kwargs s _ Hs).
  change (braces name +:+ rest) with (show_piece (Placeholder name) +:+ rest).
  rewrite show_placeholder, format_open.
  destruct name as [|c name].
  - reflexivity.
  - cbn [all_chars] in Hd. apply andb_true_iff in Hd as [Hc Hname].
    pose proof (is_digit_name_char c Hc) as Hnc.
    apply name_char_spec in Hnc as (Ho & Hcl & Hq).
    rewrite append_cons. cbn [format_go]. rewrite Ho, Hcl, Hq.
    rewrite (format_field kwargs name rest)
      by exact (all_chars_impl _ _ _ is_digit_name_char Hname).
    change (("" +:+ String c "") +:+ name) with (String c name).
    assert (Ha : ascii_text (String c name) = true).
    { apply (all_chars_impl is_digit); [exact is_digit_ascii|].
      cbn [all_chars]. rewrite Hc, Hname. reflexivity. }
    unfold get_field. cbn [String.eqb]. rewrite Ha. cbn [negb all_chars].
    rewrite Hc, Hname.
    replace (String.length (String c name) <=? 18)%nat with true
      by (symmetry; apply Nat.leb_le; exact Hlen).
    reflexivity.
Qed.

(** X21.  A placeholder whose name is a number, or is empty, is read by
    [str.format] as a positional argument, of which there is none: when
    such a placeholder is the first of the selected template the generator
    raises [IndexError], whether or not a pool has that name. *)
Theorem numeric_placeholder_raises (seed index th : Z) (profile : Profile)
    (s name rest : string) :
  templates profile <> [] ->
  Forall (fun kp => kp.2 <> []) (pools profile) ->
  in_int32 index = true ->
  len (pools profile) <= int32_max ->
  edit_hash seed [index; 0] = Ok th ->
  at_index (templates profile) (indexOf th (len (templates profile)))
  = s +:+ braces name +:+ rest ->
  brace_free s = true ->
  all_chars is_digit name = true -> (String.length name <= 18)%nat ->
  generate_edit_prompt seed index profile = Raise IndexError.
Proof.
  intros Ht Hne Hi Hlen Hth Htemplate Hs Hd Hn.
  unfold generate_edit_prompt. cbv zeta. rewrite Hth. cbn [mbind result_bind].
  destruct (select_in_range (templates profile) th Ht) as [Hj Hv].
  rewrite Hj. cbn [mbind result_bind]. rewrite Hv. cbn [mbind result_bind].
  rewrite (select_components_selected seed index _ Hne).
  destruct (selected_from_total seed index (pools profile) Hi (0 + 1)) as [chosen Hc];
    [lia|lia|].
  rewrite Hc. cbn [mbind result_bind]. rewrite Htemplate.
  unfold render. rewrite format_numeric by assumption. reflexivity.
Qed.

End Validated.

Section TestOutput.

Import validate_profile.





(** X23.  When [generate_test_output] returns, it returns one output for each
    index from 0 to [count - 1], in this order, each the test output of
    its index; a count that is not positive gives the empty list. *)
Theorem generate_test_output_entries (profile : Profile) (seed count : Z)
    (outputs : list string) :
  generate_test_output profile seed count = Ok outputs ->
  len outputs = Z.max 0 count
  /\ forall (i : nat) (output : string),
       outputs !! i = Some output ->
       test_output profile seed (Z.of_nat i) = Ok output.
Proof.
  unfold generate_test_output. intros H. apply mapM_ok_inv in H. split.
  - apply Forall2_length in H. rewrite length_seq in H. unfold len. lia.
  - intros i output Hi.
    destruct (Forall2_lookup_r _ _ _ _ _ H Hi) as (x & Hx & Hout).
    apply lookup_seq in Hx as [-> _]. exact Hout.
Qed.

End TestOutput.

Section Fallback.

Import profile_stats.





End Fallback.

Section Changed.

Import DJZ_ZeroEDIT.

Lemma edit_hash_pair (seed first second : Z) :
  match edit_hash seed [first; second] with
  | Ok h => in_int32 first && in_int32 second = true /\ is_uint32 h
  | Raise e => in_int32 first && in_int32 second = false /\ e = StructError
  end.
Proof.
  unfold edit_hash. cbn [struct_pack_i].
  destruct (in_int32 first); [|split; reflexivity].
  destruct (in_int32 second); cbn [mbind result_bind andb].
  - split; [reflexivity|apply digest_range].
  - split; reflexivity.
Qed.

(** X25.  The value a node reports to tell whether it must run again does not
    depend on the prefix and the suffix, and is not always defined: that of
    the single node is an unsigned 32-bit integer when the index fits a
    signed 32-bit integer and the exception [struct.error] when it does
    not; that of the batch node likewise, for the start index and the batch
    size. *)
Theorem IS_CHANGED_outcome (profile : string) (seed index batch_size : Z)
    (prefix suffix prefix' suffix' : string) :
  IS_CHANGED profile seed index prefix suffix
  = IS_CHANGED profile seed index prefix' suffix'
  /\ IS_CHANGED_batch profile seed index batch_size prefix suffix
     = IS_CHANGED_batch profile seed index batch_size prefix' suffix'
  /\ match IS_CHANGED profile seed index prefix suffix with
     | Ok h => in_int32 index = true /\ is_uint32 h
     | Raise e => in_int32 index = false /\ e = StructError
     end
  /\ match IS_CHANGED_batch profile seed index batch_size prefix suffix with
     | Ok h => in_int32 index && in_int32 batch_size = true /\ is_uint32 h
     | Raise e => in_int32 index && in_int32 batch_size = false /\ e = StructError
     end.
Proof.
  split; [reflexivity|]. split; [reflexivity|]. split.
  - unfold IS_CHANGED.
    pose proof (edit_hash_pair (Z.lxor seed (XXH32.digest 0 (encode profile))) index 0) as H.
    change (in_int32 0) with true in H. rewrite andb_true_r in H. exact H.
  - unfold IS_CHANGED_batch. apply edit_hash_pair.
Qed.

End Changed.

Lemma placeholders_are_words_witness : names_placeholder "{a} {b-c}" "a".
Proof.
  apply (placeholders_are_words "{a} {b-c}" "a"); [reflexivity|].
  vm_compute. left.
Defined.

Lemma validated_template_resolves_witness :
  DJZ_ZeroEDIT.generate_edit_prompt 42 0 scenario_profile
  = Ok (substitute (list_to_map [("x", "q"); ("y", "r")]) [Text "C "; Placeholder "y"]).
Proof.
  apply (validated_template_resolves 42 0 1076387279 scenario_profile
           [("x", "q"); ("y", "r")] [Text "C "; Placeholder "y"]).
  - vm_compute. reflexivity.
  - discriminate.
  - apply (bool_decide_unpack _). vm_compute. exact I.
  - vm_compute. reflexivity.
  - vm_compute. reflexivity.
  - vm_compute. reflexivity.
  - reflexivity.
  - intros name [->|H]%elem_of_cons; [reflexivity|inversion H].
Defined.

Lemma unresolved_placeholder_kept_witness :
  DJZ_ZeroEDIT.generate_edit_prompt 42 0 unresolved_profile
  = Ok (fill (list_to_map [("a", "x")]) braces
             [Placeholder "a"; Text " "; Placeholder "b"]).
Proof.
  refine (proj1 (unresolved_placeholder_kept 42 0 1076387279 unresolved_profile
                   [("a", "x")] [Placeholder "a"; Text " "; Placeholder "b"]
                   _ _ _ _ _ _ _ _)).
  - discriminate.
  - repeat constructor; discriminate.
  - apply (bool_decide_unpack _). vm_compute. exact I.
  - repeat constructor.
  - vm_compute. reflexivity.
  - vm_compute. reflexivity.
  - reflexivity.
  - reflexivity.
Defined.

Lemma numeric_placeholder_raises_witness :
  DJZ_ZeroEDIT.generate_edit_prompt 42 0 numeric_profile = Raise IndexError.
Proof.
  apply (numeric_placeholder_raises 42 0 1076387279 numeric_profile "" "0" "").
  - discriminate.
  - repeat constructor; discriminate.
  - reflexivity.
  - vm_compute. discriminate.
  - vm_compute. reflexivity.
  - reflexivity.
  - reflexivity.
  - reflexivity.
  - cbn [String.length]. lia.
Defined.


Lemma generate_test_output_entries_witness :
  len ["A q B t"; "C t"] = Z.max 0 2
  /\ forall (i : nat) (output : string),
       ["A q B t"; "C t"] !! i = Some output ->
       validate_profile.test_output scenario_profile 42 (Z.of_nat i) = Ok output.
Proof.
  apply (generate_test_output_entries scenario_profile 42 2 ["A q B t"; "C t"]).
  vm_compute. reflexivity.
Defined.


(** ** The claims on the validator and on the generator, as the code has
    them *)

Section ValidatorClaim.

Import validate_profile.


End ValidatorClaim.



Section GeneratorClaims.

Import DJZ_ZeroEDIT.


(** C2, as the code has it.  For an index in the range of a signed 32-bit
    integer and a profile whose templates are not empty, whose pools are
    each not empty and have distinct names: the hash of [(index, 0)]
    returns, and the template is the one at that hash modulo the number of
    templates; the pool at the 1-based position [i] gets the value at the
    hash of [(index, i)] modulo the size of the pool; and when the template
    is made of brace-free text and of placeholders that name pools, by
    names that are not numbers, the generator returns the template with
    each placeholder replaced by the value of its pool. *)
Theorem generate_edit_prompt_selects (seed index : Z) (profile : Profile) :
  templates profile <> [] ->
  Forall (fun kp => kp.2 <> []) (pools profile) ->
  NoDup (keys (pools profile)) ->
  in_int32 index = true ->
  len (pools profile) <= int32_max ->
  exists (th : Z) (chosen : list (string * string)),
    edit_hash seed [index; 0] = Ok th
    /\ selected_values seed index (pools profile) = Ok chosen
    /\ (forall (i : nat) (key : string) (pool : list string),
          pools profile !! i = Some (key, pool) ->
          exists h, edit_hash seed [index; Z.of_nat i + 1] = Ok h
            /\ (list_to_map chosen : gmap string string) !! key
               = Some (at_index pool (indexOf h (len pool))))
    /\ (forall pieces : list piece,
          at_index (templates profile) (indexOf th (len (templates profile)))
          = show pieces ->
          plain (list_to_map chosen) pieces = true ->
          generate_edit_prompt seed index profile
          = Ok (substitute (list_to_map chosen) pieces)).
Proof.
  intros Ht Hne Hnd Hi Hlen.
  destruct (edit_hash_total seed index 0 Hi eq_refl) as (th & Hth & _).
  destruct (selected_from_total seed index (pools profile) Hi 1) as [chosen Hc];
    [lia|lia|].
  exists th, chosen. split; [exact Hth|]. split; [exact Hc|]. split.
  - apply selected_values_lookup; assumption.
  - intros pieces Htemplate Hplain.
    rewrite (generate_edit_prompt_selection seed index profile Ht Hne Hnd), Hth.
    cbn [mbind result_bind].
    change (selected_values seed index (pools profile))
      with (selected_from seed index 1 (pools profile)).
    rewrite Hc. cbn [mbind result_bind]. rewrite Htemplate.
    unfold render. rewrite (str_format_plain _ pieces Hplain). reflexivity.
Qed.


End GeneratorClaims.



Lemma generate_edit_prompt_selects_witness :
  exists (th : Z) (chosen : list (string * string)),
    DJZ_ZeroEDIT.edit_hash 42 [0; 0] = Ok th
    /\ selected_values 42 0 (pools scenario_profile) = Ok chosen
    /\ (forall (i : nat) (key : string) (pool : list string),
          pools scenario_profile !! i = Some (key, pool) ->
          exists h, DJZ_ZeroEDIT.edit_hash 42 [0; Z.of_nat i + 1] = Ok h
            /\ (list_to_map chosen : gmap string string) !! key
               = Some (at_index pool (indexOf h (len pool))))
    /\ (forall pieces : list piece,
          at_index (templates scenario_profile)
                   (indexOf th (len (templates scenario_profile)))
          = show pieces ->
          plain (list_to_map chosen) pieces = true ->
          DJZ_ZeroEDIT.generate_edit_prompt 42 0 scenario_profile
          = Ok (substitute (list_to_map chosen) pieces)).
Proof.
  apply (generate_edit_prompt_selects 42 0 scenario_profile).
  - discriminate.
  - repeat constructor; discriminate.
  - apply (bool_decide_unpack _). vm_compute. exact I.
  - reflexivity.
  - vm_compute. discriminate.
Defined.

(** A pool that is named by a number: the value selected for it is not
    substituted for the placeholder of that name, the call raises. *)
Lemma numbered_pool_not_substituted :
  selected_values 42 0 (pools numbered_pool_profile) = Ok [("1", "sky")]
  /\ DJZ_ZeroEDIT.generate_edit_prompt 42 0 numbered_pool_profile = Raise IndexError.
Proof. split; vm_compute; reflexivity. Qed.

